(** * open_r1.code_rewards: sandboxed unit-test rewards with a label curriculum

    A shallow embedding of [src/open_r1/code_rewards.py] and the properties
    of its reward functions.

    Conventions of the embedding.
    - A Python [str] is a [string]; each [ascii] stands for one code point
      below 256.
    - A Python [float] is [pyfloat]; finite values are rationals.  The only
      arithmetic of the source is the running sum of the weights 0.25 and
      0.0, which binary64 performs exactly (every sum of fewer than 2^53
      quarters is representable), so rational addition agrees with it.
    - Exceptions are values of [exn]; a computation that may raise returns a
      [result].  Code that talks to the sandbox provider runs in the monad
      [M], which threads the log of provider calls.
    - [print] calls only write to the console and are left out. *)

From Stdlib Require Import ZArith QArith Ascii String List Lia Lqa.
From stdpp Require Import base list strings pretty.

Open Scope Z_scope.

(** ** Python strings *)

Definition LF : ascii := "010"%char.

(** The one-character string [chr(10)], written [\n] in the source. *)
Definition newline : string := String LF EmptyString.

(** The fence that opens and closes a code block. *)
Definition fence : string := "```".

(** [str.isspace] on the code points below 256. *)
Definition isspace (c : ascii) : bool :=
  let n := N_of_ascii c in
  ((9 <=? n) && (n <=? 13) || (28 <=? n) && (n <=? 32) ||
   (n =? 133) || (n =? 160))%N.

Fixpoint lstrip (s : string) : string :=
  match s with
  | EmptyString => EmptyString
  | String c s' => if isspace c then lstrip s' else s
  end.

Fixpoint rstrip (s : string) : string :=
  match s with
  | EmptyString => EmptyString
  | String c s' =>
      match rstrip s' with
      | EmptyString => if isspace c then EmptyString else String c EmptyString
      | r => String c r
      end
  end.

(** [s.strip()] *)
Definition strip (s : string) : string := rstrip (lstrip s).

(** [s.split(sep)] for a one-character separator: never the empty list. *)
Fixpoint split (sep : ascii) (s : string) : list string :=
  match s with
  | EmptyString => [EmptyString]
  | String c s' =>
      if Ascii.eqb c sep then EmptyString :: split sep s'
      else match split sep s' with
           | l :: ls => String c l :: ls
           | [] => [String c EmptyString]
           end
  end.

(** [zip(xs, ys)]: stops at the shorter argument. *)
Fixpoint zip {A B : Type} (xs : list A) (ys : list B) : list (A * B) :=
  match xs, ys with
  | x :: xs', y :: ys' => (x, y) :: zip xs' ys'
  | _, _ => []
  end.

(** [s] without its prefix [p], when it starts with [p]. *)
Fixpoint strip_prefix (p s : string) : option string :=
  match p, s with
  | EmptyString, _ => Some s
  | String a p', String b s' => if Ascii.eqb a b then strip_prefix p' s' else None
  | String _ _, EmptyString => None
  end.

(** ** The data model *)

Record Turn := { role : string; content : string }.

Definition Completion := list Turn.

(** A test case dictionary.  [label] is [case.get(label)]: [None] when the
    key is absent or holds [None]. *)
Record TestCase := {
  input : string;
  output : string;
  label : option string
}.

Record VerificationInfo := {
  language : string;
  test_cases : list TestCase
}.

(** A finite float, an infinity or a NaN. *)
Inductive pyfloat :=
| Finite (q : Q)
| Infinity (negative : bool)
| NaN.

Definition zero : pyfloat := Finite 0.

(** ** Exceptions *)

Inductive exn :=
| ImportError (msg : string)
| ValueError (msg : string) (args : list VerificationInfo)
| TypeError
| IndexError
| TimeoutExpired
| SandboxException (msg : string).

Inductive result (A : Type) :=
| Returned (a : A)
| Raised (e : exn).
Arguments Returned {A} a.
Arguments Raised {A} e.

#[global] Instance result_ret : MRet result := @Returned.
#[global] Instance result_bind : MBind result := fun A B f r =>
  match r with
  | Returned a => f a
  | Raised e => Raised e
  end.

(** [xs[-1]] *)
Definition last_item {A : Type} (xs : list A) : result A :=
  match last xs with
  | Some x => Returned x
  | None => Raised IndexError
  end.

(** [xs[0]] *)
Definition first_item {A : Type} (xs : list A) : result A :=
  match xs with
  | x :: _ => Returned x
  | [] => Raised IndexError
  end.

(** A list comprehension whose body may raise: the first exception wins. *)
Fixpoint comprehension {A B : Type} (f : A -> result B) (xs : list A)
  : result (list B) :=
  match xs with
  | [] => Returned []
  | x :: xs' => y ← f x; ys ← comprehension f xs'; mret (y :: ys)
  end.

(** ** [extract_code] *)

(** The text a block of the given language opens with: the fence, the tag
    and a line feed.  The source interpolates the tag into a regular
    expression; the embedding covers tags of ordinary characters, such as
    the default [python]. *)
Definition opening (language : string) : string :=
  fence +:+ language +:+ newline.

(** The lazy group [(.*?)] followed by the closing fence: the text before
    the first fence of [s], and the text after that fence. *)
Fixpoint find_fence (s : string) : option (string * string) :=
  match strip_prefix fence s with
  | Some rest => Some (EmptyString, rest)
  | None =>
      match s with
      | EmptyString => None
      | String c s' =>
          match find_fence s' with
          | Some (body, rest) => Some (String c body, rest)
          | None => None
          end
      end
  end.

(** [pattern.findall]: the captured groups of the non-overlapping matches,
    leftmost first.  The scan advances one character at a time; after a
    match it skips the characters the match consumed. *)
Fixpoint findall_from (skip : nat) (opening : string) (s : string)
  : list string :=
  match s with
  | EmptyString => []
  | String _ s' =>
      match skip with
      | S k => findall_from k opening s'
      | O =>
          match strip_prefix opening s with
          | Some rest =>
              match find_fence rest with
              | Some (body, _) =>
                  body :: findall_from
                    (String.length opening + String.length body + 2)
                    opening s'
              | None => findall_from 0 opening s'
              end
          | None => findall_from 0 opening s'
          end
      end
  end.

Definition findall (language completion : string) : list string :=
  findall_from 0 (opening language) completion.

Definition extract_code (completion : string) (language : string) : string :=
  let matches := findall language completion in
  match last matches with
  | Some extracted_answer => extracted_answer
  | None => EmptyString
  end.

(** ** The evaluation payload *)

(** A rendered [evaluation_script_template].  The template receives the
    snippet and the test cases as JSON literals and decodes them back, so
    the script is kept as the two values it denotes. *)
Record Script := {
  code_snippet : string;
  script_test_cases : list TestCase
}.

Record CompletedProcess := { returncode : Z; stdout : string }.

Definition quarter : Q := 1 # 4.

Definition weights : list (string * Q) :=
  [("basic", quarter); ("medium", quarter); ("high", quarter);
   ("edge", quarter)].

(** [d.get(key, default)] *)
Fixpoint dict_get {V : Type} (d : list (string * V)) (key : string)
  (default : V) : V :=
  match d with
  | [] => default
  | (k, v) :: d' => if String.eqb k key then v else dict_get d' key default
  end.

Section Payload.

(** [subprocess.run([python3, -c, code], input=..., text=True,
    capture_output=True, timeout=exec_timeout)]: the completed process,
    or the exception the call raises (for one, [TimeoutExpired] once the
    ten seconds are over). *)
Variable subprocess_run : string -> string -> result CompletedProcess.

(** The inner loop over [zip(output.split(LF), case[output].split(LF))]. *)
Definition lines_correct (output expected : string) : bool :=
  fold_left
    (fun all_correct '(line1, line2) =>
       all_correct && bool_decide (strip line1 = strip line2))
    (zip (split LF output) (split LF expected)) true.

(** The loop of [evaluate_code], with its two accumulators. *)
Fixpoint evaluate_loop (code : string) (cases : list TestCase)
  (passed_weight total_weight : Q) : result Q :=
  match cases with
  | [] => Returned passed_weight
  | case :: rest =>
      let label := match label case with
                   | None => "minimal"
                   | Some l => l
                   end in
      let weight := dict_get weights (strip label) 0%Q in
      let total_weight := (total_weight + weight)%Q in
      process ← subprocess_run code (input case);
      if negb (returncode process =? 0) then
        evaluate_loop code rest passed_weight total_weight
      else
        let output' := strip (stdout process) in
        if lines_correct output' (output case) then
          evaluate_loop code rest (passed_weight + weight)%Q total_weight
        else
          evaluate_loop code rest passed_weight total_weight
  end.

Definition evaluate_code (code : string) (test_cases : list TestCase)
  : result Q :=
  evaluate_loop code test_cases 0%Q 0%Q.

(** The value of the last expression of a rendered script. *)
Definition script_value (script : Script) : result Q :=
  evaluate_code (code_snippet script) (script_test_cases script).

End Payload.

(** ** The sandbox provider and the monad of provider calls *)

(** What [sbx.run_code] returns; [text] is [execution.text], [None] when the
    run produced no main result. *)
Record Execution := { text : option string }.

(** One call to the provider. *)
Inductive event :=
| SandboxCreate
| RunCode (script : Script) (language : string)
| SandboxKill.

(** The provider, an external collaborator, is given by the outcome of each
    of its three operations.  [run_code i] answers the [i]-th request of a
    dispatch, so that two requests with the same script may fare
    differently. *)
Record Provider := {
  create : result unit;
  run_code : nat -> Script -> string -> result Execution;
  kill : result unit
}.

(** A computation that logs its provider calls and returns or raises. *)
Definition M (A : Type) : Type := list event -> result A * list event.

#[global] Instance M_ret : MRet M := fun A a log => (Returned a, log).
#[global] Instance M_bind : MBind M := fun A B f m log =>
  match m log with
  | (Returned a, log') => f a log'
  | (Raised e, log') => (Raised e, log')
  end.

Definition raise {A : Type} (e : exn) : M A := fun log => (Raised e, log).

(** [try: body except Exception as e: handler(e)] *)
Definition try_except {A : Type} (body : M A) (handler : exn -> M A) : M A :=
  fun log =>
    match body log with
    | (Returned a, log') => (Returned a, log')
    | (Raised e, log') => handler e log'
    end.

(** A provider operation: log the call, then return or raise as the
    provider decides. *)
Definition call {A : Type} (ev : event) (outcome : result A) : M A :=
  fun log => (outcome, log ++ [ev]).

(** [asyncio.gather] over the tasks: every task is started and runs to its end,
    whatever happens to its siblings; the results come back in the order of
    the tasks, unless a task raised, in which case the gathering raises. *)
Fixpoint run_tasks {A : Type} (tasks : list (M A)) (log : list event)
  : list (result A) * list event :=
  match tasks with
  | [] => ([], log)
  | task :: tasks' =>
      let '(r, log') := task log in
      let '(rs, log'') := run_tasks tasks' log' in
      (r :: rs, log'')
  end.

Definition gather {A : Type} (tasks : list (M A)) : M (list A) :=
  fun log =>
    let '(results, log') := run_tasks tasks log in
    (comprehension id results, log').

Section Rewards.

(** [is_e2b_available()] *)
Variable is_e2b_available : bool.

(** [float(s)] for a string [s]: [None] when it raises [ValueError]. *)
Variable float_of_str : string -> option pyfloat.

(** [AsyncSandbox] *)
Variable AsyncSandbox : Provider.

(** [float(execution.text)] *)
Definition float (text : option string) : result pyfloat :=
  match text with
  | None => Raised TypeError
  | Some s =>
      match float_of_str s with
      | Some x => Returned x
      | None => Raised (ValueError "could not convert string to float" [])
      end
  end.

(** The [i]-th request of a dispatch. *)
Definition run_script (i : nat) (script : Script) (language : string)
  : M pyfloat :=
  execution ← call (RunCode script language)
                   (run_code AsyncSandbox i script language);
  match float (text execution) with
  | Returned x => mret x
  | Raised TypeError | Raised (ValueError _ _) => mret zero
  | Raised _ => mret zero
  end.

Definition run_async (scripts : list Script) (language : string)
  : M (list pyfloat) :=
  sbx ← call SandboxCreate (create AsyncSandbox);
  let tasks := imap (fun i script => run_script i script language) scripts in
  results ← gather tasks;
  let rewards := results in
  _ ← call SandboxKill (kill AsyncSandbox);
  mret rewards.

Definition run_async_from_sync (scripts : list Script) (language : string)
  : M (list pyfloat) :=
  rewards ← try_except (run_async scripts language) (fun e => raise e);
  mret rewards.

(** [evaluation_script_template.format(code=..., test_cases=...)] *)
Definition render (code : string) (info : VerificationInfo) : Script :=
  {| code_snippet := code; script_test_cases := test_cases info |}.

(** The list comprehension that builds [code_snippets]. *)
Definition code_snippets_of (completions : list Completion)
  : result (list string) :=
  comprehension
    (fun completion =>
       turn ← last_item completion;
       mret (extract_code (content turn) "python"))
    completions.

Definition lift {A : Type} (r : result A) : M A := fun log => (r, log).

Definition code_based_on_unittests_reward (completions : list Completion)
  (verification_info : list VerificationInfo) : M (list pyfloat) :=
  if negb is_e2b_available then
    raise (ImportError "E2B is not available and required for this reward function.")
  else
    code_snippets ← lift (code_snippets_of completions);
    let scripts :=
      map (fun '(code, info) => render code info)
          (zip code_snippets verification_info) in
    info0 ← lift (first_item verification_info);
    let language0 := language info0 in
    if negb (forallb (fun v => bool_decide (language v = language0))
                     verification_info) then
      raise (ValueError "All verification_info must have the same language"
                        verification_info)
    else
      try_except (run_async_from_sync scripts language0)
        (fun e => mret (repeat zero (length completions))).

End Rewards.

(** ** The curriculum *)

Definition label_schedule (epoch : Z) : list string :=
  if epoch <? 1 then ["basic"]
  else if epoch <? 2 then ["basic"; "medium"]
  else if epoch <? 3 then ["basic"; "medium"; "high"]
  else ["basic"; "medium"; "high"; "edge"].

(** [x in xs] for a list of strings *)
Definition contains (xs : list string) (x : string) : bool :=
  existsb (String.eqb x) xs.

(** [case.get(label) or minimal]: [None] and the empty string are falsy. *)
Definition label_or_minimal (case : TestCase) : string :=
  match label case with
  | None | Some EmptyString => "minimal"
  | Some l => l
  end.

(** The comprehension that rebuilds [info[test_cases]]. *)
Definition allowed_cases (allowed_labels : list string)
  (cases : list TestCase) : list TestCase :=
  List.filter (fun case => contains allowed_labels (label_or_minimal case)) cases.

(** [info[test_cases] = ...]: the dictionary is updated in place. *)
Definition set_test_cases (cases : list TestCase) (info : VerificationInfo)
  : VerificationInfo :=
  {| language := language info; test_cases := cases |}.

(** The dictionaries of [kwargs[verification_info]] live in a store and the
    list holds references to them, so that one dictionary may occur at
    several positions of the list. *)
Abbreviation store := (list VerificationInfo).

(** The [for info in kwargs[verification_info]] loop. *)
Fixpoint gate_loop (allowed_labels : list string) (refs : list nat)
  (h : store) : store :=
  match refs with
  | [] => h
  | info :: refs' =>
      gate_loop allowed_labels refs'
        (alter (fun d => set_test_cases
                           (allowed_cases allowed_labels (test_cases d)) d)
               info h)
  end.

(** The dictionaries a list of references points to. *)
Definition deref (h : store) (refs : list nat) : list VerificationInfo :=
  omap (fun r => h !! r) refs.

(** Returns the store as the loop leaves it, and the rest of the call. *)
Definition curriculum_aware_reward_fn (is_e2b_available : bool)
  (float_of_str : string -> option pyfloat) (AsyncSandbox : Provider)
  (completions : list Completion) (verification_info : list nat)
  (epoch : Z) (h : store) : store * M (list pyfloat) :=
  let current_epoch := epoch in
  let allowed_labels := label_schedule current_epoch in
  let h' := gate_loop allowed_labels verification_info h in
  (h', code_based_on_unittests_reward is_e2b_available float_of_str
         AsyncSandbox completions (deref h' verification_info)).

(** Runs a computation from an empty log. *)
Definition run {A : Type} (m : M A) : result A * list event := m [].

(** ** Specification-level definitions

    The definitions below do not come from the source: they restate, in the
    words of the specification, what the source is compared with. *)

(** The snippet the facade extracts from a completion with a final turn. *)
Definition snippet_of (completion : Completion) : string :=
  match last completion with
  | Some turn => extract_code (content turn) "python"
  | None => EmptyString
  end.

(** The scripts of a batch, one per aligned pair. *)
Definition scripts_of (completions : list Completion)
  (verification_info : list VerificationInfo) : list Script :=
  map (fun '(code, info) => render code info)
      (zip (map snippet_of completions) verification_info).

(** [t] occurs in [s]. *)
Definition occurs (t s : string) : Prop :=
  exists pre post, s = pre +:+ t +:+ post.

(** [s] holds a complete block: the opening [op], some body and a closing
    fence. *)
Definition block_in (op s : string) : Prop :=
  exists pre body post, s = pre +:+ op +:+ body +:+ fence +:+ post.

(** The label of a case as the specification resolves it: [minimal] when
    the label is absent or blank. *)
Definition resolved_label (case : TestCase) : string :=
  match label case with
  | None => "minimal"
  | Some l => if bool_decide (strip l = EmptyString) then "minimal" else l
  end.

(** The weight table read literally: the four labels weigh a quarter, a
    missing label is [minimal], every other label weighs nothing. *)
Definition literal_weight (case : TestCase) : Q :=
  let l := match label case with None => "minimal" | Some l => l end in
  if contains ["basic"; "medium"; "high"; "edge"] l then quarter else 0%Q.

(** The weight table applied to the label without its surrounding white
    space. *)
Definition trimmed_weight (case : TestCase) : Q :=
  let l := match label case with None => "minimal" | Some l => l end in
  if contains ["basic"; "medium"; "high"; "edge"] (strip l) then quarter
  else 0%Q.

Section PayloadSpec.

Variable subprocess_run : string -> string -> result CompletedProcess.

(** A case passes when its subprocess exits with code 0 and the paired
    lines of the trimmed standard output and of the expected output agree
    once trimmed; the pairing stops at the shorter side. *)
Definition case_passes (code : string) (case : TestCase) : bool :=
  match subprocess_run code (input case) with
  | Returned process =>
      (returncode process =? 0) &&
      forallb (fun '(line1, line2) => bool_decide (strip line1 = strip line2))
              (zip (split LF (strip (stdout process)))
                   (split LF (output case)))
  | Raised _ => false
  end.

(** The sum, without normalisation, of the weights of the passing cases. *)
Fixpoint weighted_pass_sum (weight : TestCase -> Q) (code : string)
  (cases : list TestCase) : Q :=
  match cases with
  | [] => 0%Q
  | case :: rest =>
      ((if case_passes code case then weight case else 0) +
       weighted_pass_sum weight code rest)%Q
  end.

(** Every subprocess run of the payload completes. *)
Definition all_complete (code : string) (cases : list TestCase) : Prop :=
  Forall (fun case => exists process,
            subprocess_run code (input case) = Returned process) cases.

End PayloadSpec.

(** The provider answers a request with the value its payload computes:
    whenever the text of the execution parses as a float, that float is the
    value of the script. *)
Definition answers_payload
  (subprocess_run : string -> string -> result CompletedProcess)
  (float_of_str : string -> option pyfloat) (P : Provider)
  (i : nat) (script : Script) : Prop :=
  forall language t x,
    run_code P i script language = Returned {| text := Some t |} ->
    float_of_str t = Some x ->
    exists v q, script_value subprocess_run script = Returned v /\
                x = Finite q /\ (q == v)%Q.

(** The number of [SandboxKill] calls of a log. *)
Definition kills (log : list event) : nat :=
  length (List.filter (fun ev => match ev with SandboxKill => true | _ => false end) log).

(** The number of [RunCode] calls of a log. *)
Definition requests (log : list event) : nat :=
  length (List.filter (fun ev => match ev with RunCode _ _ => true | _ => false end) log).

(** ** Concrete collaborators for running the model *)

Module Fixtures.

(** [float] on plain decimal numerals (digits with at most one point and
    at least one digit).  [float] accepts more; on these strings the two
    agree up to the rounding of [float], which the multiples of a quarter
    used below do not undergo. *)
Fixpoint decimal_go (s : string) (digits : nat) (num : N)
  (den : option positive) : option Q :=
  match s with
  | EmptyString =>
      match digits with
      | O => None
      | S _ => Some (Z.of_N num # default 1%positive den)
      end
  | String c s' =>
      if Ascii.eqb c "."%char then
        match den with
        | None => decimal_go s' digits num (Some 1%positive)
        | Some _ => None
        end
      else
        match Ascii.is_nat c with
        | Some d =>
            decimal_go s' (S digits) (10 * num + N.of_nat d)%N
                       (Pos.mul 10 <$> den)
        | None => None
        end
  end.

Definition float_of_decimal (s : string) : option pyfloat :=
  Finite <$> decimal_go s 0 0%N None.

(** [repr] of a non-negative multiple of a quarter below 10^16. *)
Definition repr_quarters (v : Q) : string :=
  let n := (Qnum v / Zpos (Qden v))%Z in
  let r := ((4 * (Qnum v mod Zpos (Qden v))) / Zpos (Qden v))%Z in
  pretty n +:+ "." +:+
    (if r =? 0 then "0" else if r =? 1 then "25"
     else if r =? 2 then "5" else "75").

(** A provider that runs every payload and returns the text of its value,
    or no text when the payload raises. *)
Definition payload_provider
  (subprocess_run : string -> string -> result CompletedProcess)
  : Provider :=
  {| create := Returned ();
     run_code := fun _ script _ =>
       Returned {| text := match script_value subprocess_run script with
                           | Returned v => Some (repr_quarters v)
                           | Raised _ => None
                           end |};
     kill := Returned () |}.

Definition print_one : string := "print(1)" +:+ newline.

Definition count_down : string :=
  "n = int(input())" +:+ newline +:+ "while n: pass" +:+ newline +:+
  "print(n)" +:+ newline.

(** What [python3 -c code] does on the snippets of the examples:
    [print_one] prints 1; [count_down] prints 0 on the input 0 and loops
    for ever on the input 1; any other run exits with status 1. *)
Definition python3 (code input : string) : result CompletedProcess :=
  if bool_decide (code = print_one) then
    Returned {| returncode := 0; stdout := "1" +:+ newline |}
  else if bool_decide (code = count_down) then
    if bool_decide (input = "0") then
      Returned {| returncode := 0; stdout := "0" +:+ newline |}
    else if bool_decide (input = "1") then Raised TimeoutExpired
    else Returned {| returncode := 1; stdout := EmptyString |}
  else Returned {| returncode := 1; stdout := EmptyString |}.

Definition fenced (tag body : string) : string :=
  fence +:+ tag +:+ newline +:+ body +:+ fence.

Definition assistant (text : string) : Completion :=
  [{| role := "assistant"; content := text |}].

Definition case (l : string) (stdin expected : string) : TestCase :=
  {| input := stdin; output := expected; label := Some l |}.

Definition python_info (cases : list TestCase) : VerificationInfo :=
  {| language := "python"; test_cases := cases |}.

(** A provider whose first request fails and whose other requests return
    the text 0.25. *)
Definition first_request_fails : Provider :=
  {| create := Returned ();
     run_code := fun i _ _ =>
       match i with
       | O => Raised (SandboxException "request timed out")
       | S _ => Returned {| text := Some "0.25" |}
       end;
     kill := Returned () |}.

(** A case that [print_one] passes. *)
Definition basic_case : TestCase := case "basic" EmptyString "1".

Definition log_one : string := "console.log(1)" +:+ newline.

(** The script the facade renders for [prints_one] and [basic_case]. *)
Definition print_one_script : Script :=
  {| code_snippet := print_one; script_test_cases := [basic_case] |}.

Definition javascript_info (cases : list TestCase) : VerificationInfo :=
  {| language := "javascript"; test_cases := cases |}.

(** A completion whose final turn holds [print_one] in a python block. *)
Definition prints_one : Completion := assistant (fenced "python" print_one).

End Fixtures.

(** Providers that fail at one of their operations. *)
Module Faulty.

(** The sandbox cannot be created. *)
Definition no_sandbox : Provider :=
  {| create := Raised (SandboxException "sandbox creation timed out");
     run_code := fun _ _ _ => Returned {| text := Some "0.25" |};
     kill := Returned () |}.

(** Every request returns the text 0.25, but the sandbox cannot be killed. *)
Definition no_kill : Provider :=
  {| create := Returned ();
     run_code := fun _ _ _ => Returned {| text := Some "0.25" |};
     kill := Raised (SandboxException "sandbox not found") |}.

(** Every request returns: the first a float, the second no text, every
    other one a text that is no float. *)
Definition mixed_answers : Provider :=
  {| create := Returned ();
     run_code := fun i _ _ =>
       match i with
       | O => Returned {| text := Some "0.25" |}
       | S O => Returned {| text := None |}
       | S (S _) => Returned {| text := Some "Traceback" |}
       end;
     kill := Returned () |}.

End Faulty.

(** ** The dispatch in closed form

    Specification-level descriptions of what one dispatch returns and which
    provider calls it makes; the lemmas below prove that [run_async]
    computes them. *)

(** The outcome of the [i]-th request taken alone. *)
Definition request_result (float_of_str : string -> option pyfloat)
  (P : Provider) (language : string) (i : nat) (script : Script)
  : result pyfloat :=
  match run_code P i script language with
  | Raised e => Raised e
  | Returned execution =>
      Returned (match float float_of_str (text execution) with
                | Returned x => x
                | Raised _ => zero
                end)
  end.

Definition dispatch_outcome (float_of_str : string -> option pyfloat)
  (P : Provider) (scripts : list Script) (language : string)
  : result (list pyfloat) :=
  _ ← create P;
  rewards ← comprehension id (imap (request_result float_of_str P language) scripts);
  _ ← kill P;
  mret rewards.

Definition dispatch_log (float_of_str : string -> option pyfloat)
  (P : Provider) (scripts : list Script) (language : string) : list event :=
  SandboxCreate ::
  match create P with
  | Raised _ => []
  | Returned _ =>
      map (fun script => RunCode script language) scripts ++
      match comprehension id
              (imap (request_result float_of_str P language) scripts) with
      | Raised _ => []
      | Returned _ => [SandboxKill]
      end
  end.

(** The reward of the [i]-th request when the provider answers it: the
    float of the text of its execution, or zero when there is no text or
    the text is no float. *)
Definition answered_reward (float_of_str : string -> option pyfloat)
  (P : Provider) (language : string) (i : nat) (script : Script) : pyfloat :=
  match run_code P i script language with
  | Returned execution =>
      match float float_of_str (text execution) with
      | Returned x => x
      | Raised _ => zero
      end
  | Raised _ => zero
  end.

(** The provider answers every request for the given scripts. *)
Definition all_answered (P : Provider) (scripts : list Script)
  (language : string) : Prop :=
  forall i script, scripts !! i = Some script ->
    exists execution, run_code P i script language = Returned execution.

(** The largest value a payload can compute for a record: a quarter per
    test case. *)
Definition max_reward (info : VerificationInfo) : Q :=
  quarter * inject_Z (Z.of_nat (length (test_cases info))).

(** * Properties *)

(** Unfolds the bind and return of [result] and of [M]. *)
Ltac unfold_monad :=
  unfold mbind, mret, result_bind, result_ret, M_bind, M_ret, lift, raise,
    call, try_except in *.

Section Dispatch.

Variable float_of_str : string -> option pyfloat.
Variable P : Provider.

Lemma run_script_spec i script language log :
  run_script float_of_str P i script language log =
  (request_result float_of_str P language i script,
   log ++ [RunCode script language]).
Proof.
  unfold run_script, request_result. unfold_monad.
  destruct (run_code P i script language) as [execution|e]; [|done].
  destruct (float float_of_str (text execution)) as [x|[]]; done.
Qed.

Lemma run_tasks_imap {A : Type} (f : nat -> Script -> M A)
  (g : nat -> Script -> result A) (ev : Script -> event) scripts log :
  (forall i s l, f i s l = (g i s, l ++ [ev s])) ->
  run_tasks (imap f scripts) log = (imap g scripts, log ++ map ev scripts).
Proof.
  revert f g log.
  induction scripts as [|s scripts IH]; intros f g log Hf; simpl.
  - by rewrite app_nil_r.
  - rewrite Hf.
    rewrite (IH (f ∘ S) (g ∘ S) (log ++ [ev s])).
    + by rewrite <- app_assoc.
    + intros i s' l. apply Hf.
Qed.

Lemma comprehension_length {A : Type} (rs : list (result A)) xs :
  comprehension id rs = Returned xs -> length xs = length rs.
Proof.
  revert xs. induction rs as [|[a|e] rs IH]; intros xs; simpl.
  - by intros [= <-].
  - unfold_monad. destruct (comprehension _ rs) as [ys|e]; [|done].
    intros [= <-]. simpl. by rewrite (IH ys).
  - done.
Qed.

Lemma comprehension_lookup {A : Type} (rs : list (result A)) xs i x :
  comprehension id rs = Returned xs -> xs !! i = Some x ->
  rs !! i = Some (Returned x).
Proof.
  revert xs i. induction rs as [|[a|e] rs IH]; intros xs i; simpl.
  - by intros [= <-].
  - unfold_monad. destruct (comprehension _ rs) as [ys|e] eqn:E; [|done].
    intros [= <-]. destruct i as [|i]; simpl.
    + by intros [= ->].
    + by apply IH.
  - done.
Qed.

Theorem run_async_spec scripts language log :
  run_async float_of_str P scripts language log =
  (dispatch_outcome float_of_str P scripts language,
   log ++ dispatch_log float_of_str P scripts language).
Proof.
  unfold run_async, dispatch_outcome, dispatch_log, gather. unfold_monad.
  destruct (create P) as [[]|e]; simpl; [|done].
  rewrite (run_tasks_imap _ (request_result float_of_str P language)
             (fun script => RunCode script language));
    [|intros; apply run_script_spec].
  destruct (comprehension id _) as [rewards|e]; simpl.
  - destruct (kill P) as [[]|e]; simpl;
      by rewrite <- !app_assoc.
  - by rewrite app_nil_r, <- app_assoc.
Qed.

Lemma run_async_from_sync_spec scripts language log :
  run_async_from_sync float_of_str P scripts language log =
  run_async float_of_str P scripts language log.
Proof.
  unfold run_async_from_sync. unfold_monad.
  by destruct (run_async _ _ _ _ _) as [[rewards|e] log'].
Qed.

Lemma dispatch_outcome_length scripts language rewards :
  dispatch_outcome float_of_str P scripts language = Returned rewards ->
  length rewards = length scripts.
Proof.
  unfold dispatch_outcome. unfold_monad.
  destruct (create P) as [[]|e]; [|done].
  destruct (comprehension id _) as [rs|e] eqn:E; [|done].
  destruct (kill P) as [[]|e]; [|done].
  intros [= <-]. apply comprehension_length in E.
  by rewrite E, length_imap.
Qed.

End Dispatch.

Section Facade.

Lemma zip_length {A B : Type} (xs : list A) (ys : list B) :
  length (zip xs ys) = Nat.min (length xs) (length ys).
Proof.
  revert ys. induction xs as [|x xs IH]; intros [|y ys]; simpl; auto.
Qed.

Lemma scripts_of_length completions verification_info :
  length (scripts_of completions verification_info) =
  Nat.min (length completions) (length verification_info).
Proof.
  unfold scripts_of. by rewrite length_map, zip_length, length_map.
Qed.

Lemma code_snippets_of_spec completions :
  Forall (fun completion => completion <> []) completions ->
  code_snippets_of completions = Returned (map snippet_of completions).
Proof.
  unfold code_snippets_of.
  induction 1 as [|completion completions Hne _ IH]; simpl; [done|].
  rewrite IH. unfold last_item, snippet_of.
  destruct (last completion) as [turn|] eqn:E; [done|].
  by apply last_None in E.
Qed.

Lemma same_language_check verification_info language0 :
  forallb (fun v => bool_decide (language v = language0)) verification_info
    = true <->
  Forall (fun v => language v = language0) verification_info.
Proof.
  induction verification_info as [|v vs IH]; simpl.
  - split; auto.
  - rewrite andb_true_iff, IH, Forall_cons, bool_decide_eq_true. tauto.
Qed.

(** What the facade computes on a batch that passes its checks: the
    rewards of the dispatch, or zeros when the dispatch raises. *)
Variable float_of_str : string -> option pyfloat.
Variable P : Provider.

Lemma reward_spec completions verification_info info0 log :
  Forall (fun completion => completion <> []) completions ->
  head verification_info = Some info0 ->
  Forall (fun v => language v = language info0) verification_info ->
  code_based_on_unittests_reward true float_of_str P completions
    verification_info log =
  (Returned
     match dispatch_outcome float_of_str P
             (scripts_of completions verification_info) (language info0) with
     | Returned rewards => rewards
     | Raised _ => repeat zero (length completions)
     end,
   log ++ dispatch_log float_of_str P
            (scripts_of completions verification_info) (language info0)).
Proof.
  intros Hne Hhead Hsame.
  unfold code_based_on_unittests_reward.
  rewrite code_snippets_of_spec by done.
  destruct verification_info as [|v vs]; [done|].
  injection Hhead as ->.
  unfold_monad. unfold first_item.
  apply same_language_check in Hsame. rewrite Hsame.
  change (negb true) with false. cbv beta iota.
  rewrite run_async_from_sync_spec, run_async_spec.
  fold (scripts_of completions (info0 :: vs)).
  by destruct (dispatch_outcome _ _ _ _).
Qed.

End Facade.

(** ** The facade: result length and validation *)

(** C1 (amended).  With the sandbox capability available, on a batch whose
    completions all have a final turn, whose [verification_info] is aligned
    with the completions and starts with a record [info0], and whose
    records all declare the language of [info0],
    [code_based_on_unittests_reward] returns a reward list as long as
    [completions]; when the dispatch raises, that list is all zeros. *)
Theorem reward_length_aligned_batch
  (float_of_str : string -> option pyfloat) (P : Provider)
  (completions : list Completion) (verification_info : list VerificationInfo)
  (info0 : VerificationInfo) :
  Forall (fun completion => completion <> []) completions ->
  length verification_info = length completions ->
  head verification_info = Some info0 ->
  Forall (fun v => language v = language info0) verification_info ->
  exists rewards log,
    run (code_based_on_unittests_reward true float_of_str P completions
           verification_info) = (Returned rewards, log) /\
    length rewards = length completions /\
    forall e log',
      run (run_async_from_sync float_of_str P
             (scripts_of completions verification_info) (language info0))
        = (Raised e, log') ->
      rewards = repeat zero (length completions).
Proof.
  intros Hne Hlen Hhead Hsame. unfold run.
  rewrite (reward_spec _ _ _ _ info0) by done.
  eexists _, _. split; [reflexivity|]. split.
  - destruct (dispatch_outcome _ _ _ _) as [rewards|e] eqn:E.
    + apply dispatch_outcome_length in E.
      rewrite E, scripts_of_length. lia.
    + apply repeat_length.
  - intros e log'. rewrite run_async_from_sync_spec, run_async_spec.
    by intros [= -> _].
Qed.

(** C8 (amended).  With the sandbox capability available and every
    completion having a final turn, a batch in which two records declare
    different languages makes [code_based_on_unittests_reward] raise a
    [ValueError] that carries the whole [verification_info] list, the
    offending records included, without any call to the provider. *)
Theorem mixed_languages_rejected
  (float_of_str : string -> option pyfloat) (P : Provider)
  (completions : list Completion) (verification_info : list VerificationInfo)
  (v w : VerificationInfo) :
  Forall (fun completion => completion <> []) completions ->
  v ∈ verification_info -> w ∈ verification_info ->
  language v <> language w ->
  run (code_based_on_unittests_reward true float_of_str P completions
         verification_info) =
  (Raised (ValueError "All verification_info must have the same language"
                      verification_info), []).
Proof.
  intros Hne Hv Hw Hvw. unfold run, code_based_on_unittests_reward.
  rewrite code_snippets_of_spec by done.
  destruct verification_info as [|info0 vs]; [by apply elem_of_nil in Hv|].
  unfold_monad. unfold first_item.
  change (negb true) with false. cbv beta iota.
  destruct (forallb _ (info0 :: vs)) eqn:E; [|reflexivity].
  apply same_language_check in E. rewrite Forall_forall in E.
  destruct Hvw. by rewrite (E v Hv), (E w Hw).
Qed.

(** C10.  With the sandbox capability available, the empty batch makes
    [code_based_on_unittests_reward] raise [IndexError], whatever the
    provider: the language is read from the first record before anything
    checks that there is one. *)
Theorem empty_batch_raises_IndexError
  (float_of_str : string -> option pyfloat) (P : Provider) :
  run (code_based_on_unittests_reward true float_of_str P [] []) =
  (Raised IndexError, []).
Proof.
  unfold run, code_based_on_unittests_reward.
  change (negb true) with false. cbv iota.
  change (code_snippets_of []) with (Returned ([] : list string)).
  reflexivity.
Qed.

(** ** The curriculum schedule *)

(** C6.  [label_schedule] returns [basic] below epoch 1, adds [medium] from
    epoch 1, [high] from epoch 2 and [edge] from epoch 3, and the labels of
    an epoch are among those of every later epoch. *)
Theorem label_schedule_by_epoch (e : Z) :
  (e < 1 -> label_schedule e = ["basic"]) /\
  (1 <= e < 2 -> label_schedule e = ["basic"; "medium"]) /\
  (2 <= e < 3 -> label_schedule e = ["basic"; "medium"; "high"]) /\
  (3 <= e -> label_schedule e = ["basic"; "medium"; "high"; "edge"]) /\
  (forall e', e <= e' -> label_schedule e ⊆ label_schedule e').
Proof.
  unfold label_schedule.
  repeat split; intros;
    repeat match goal with
           | |- context [?a <? ?b] => destruct (Z.ltb_spec a b)
           end;
    try lia; try reflexivity;
    intros x; rewrite !elem_of_cons; tauto.
Qed.

(** ** The curriculum gate *)

Lemma contains_elem_of (xs : list string) (x : string) :
  contains xs x = true <-> x ∈ xs.
Proof.
  unfold contains. induction xs as [|y ys IH]; simpl.
  - rewrite elem_of_nil. split; [discriminate|tauto].
  - rewrite orb_true_iff, IH, elem_of_cons, String.eqb_eq. tauto.
Qed.

Lemma label_schedule_labels (epoch : Z) (l : string) :
  l ∈ label_schedule epoch ->
  l = "basic" \/ l = "medium" \/ l = "high" \/ l = "edge".
Proof.
  unfold label_schedule.
  repeat match goal with
         | |- context [?a <? ?b] => destruct (Z.ltb_spec a b)
         end;
    rewrite !elem_of_cons, elem_of_nil; tauto.
Qed.

(** The test of the source, [case.get(label) or minimal] in the allowed
    labels, decides membership of the resolved label, although it leaves a
    label of white space as it is. *)
Lemma allowed_iff_resolved (epoch : Z) (case : TestCase) :
  contains (label_schedule epoch) (label_or_minimal case) = true <->
  resolved_label case ∈ label_schedule epoch.
Proof.
  rewrite contains_elem_of. unfold label_or_minimal, resolved_label.
  destruct (label case) as [[|c l]|]; [done| |done].
  case_bool_decide as Hblank; [|done].
  split; intros Hin; apply label_schedule_labels in Hin;
    destruct Hin as [H|[H|[H|H]]]; try discriminate H;
    rewrite H in Hblank; discriminate Hblank.
Qed.

Lemma allowed_cases_resolved (epoch : Z) (cases : list TestCase) :
  allowed_cases (label_schedule epoch) cases =
  filter (fun case => resolved_label case ∈ label_schedule epoch) cases.
Proof.
  unfold allowed_cases. induction cases as [|case cases IH]; simpl; [done|].
  rewrite filter_cons, IH.
  destruct (contains _ _) eqn:E; case_decide as Hin; try done.
  - apply allowed_iff_resolved in E. done.
  - apply allowed_iff_resolved in Hin. congruence.
Qed.

Lemma allowed_cases_idemp (allowed : list string) (cases : list TestCase) :
  allowed_cases allowed (allowed_cases allowed cases) =
  allowed_cases allowed cases.
Proof.
  unfold allowed_cases. induction cases as [|case cases IH]; simpl; [done|].
  destruct (contains _ _) eqn:E; simpl; [|done]. by rewrite E, IH.
Qed.

(** The loop filters the dictionary behind every reference of the list
    once, however often the list refers to it, and leaves every other
    dictionary alone. *)
Lemma gate_loop_lookup (allowed : list string) (refs : list nat) (h : store)
  (r : nat) :
  gate_loop allowed refs h !! r =
  (if decide (r ∈ refs)
   then fun d => set_test_cases (allowed_cases allowed (test_cases d)) d
   else id) <$> h !! r.
Proof.
  revert h. induction refs as [|a refs IH]; intros h; simpl.
  - by destruct (h !! r).
  - rewrite IH. destruct (decide (r = a)) as [->|Hne].
    + rewrite list_lookup_alter_eq.
      rewrite (decide_True _ _ (list_elem_of_here a refs)).
      destruct (h !! a) as [d|]; simpl; [|by case_decide].
      case_decide; simpl; [|done].
      unfold set_test_cases. simpl. by rewrite allowed_cases_idemp.
    + rewrite list_lookup_alter_ne by done.
      destruct (decide (r ∈ refs)) as [Hin|Hnin].
      * by rewrite decide_True by (by right).
      * rewrite decide_False; [done|].
        rewrite elem_of_cons. tauto.
Qed.

(** C5.  For every epoch and every dictionary the batch refers to,
    [curriculum_aware_reward_fn] leaves in its [test_cases] exactly the
    original cases, in their order, whose resolved label (minimal when the
    label is absent or blank) is among the labels of the epoch; no case
    without a label or labelled minimal is left. *)
Theorem curriculum_gate_filters (is_e2b_available : bool)
  (float_of_str : string -> option pyfloat) (P : Provider)
  (completions : list Completion) (verification_info : list nat)
  (epoch : Z) (h : store) (r : nat) (info : VerificationInfo) :
  r ∈ verification_info ->
  h !! r = Some info ->
  (curriculum_aware_reward_fn is_e2b_available float_of_str P completions
     verification_info epoch h).1 !! r =
  Some {| language := language info;
          test_cases :=
            filter (fun case => resolved_label case ∈ label_schedule epoch)
                   (test_cases info) |} /\
  forall case,
    case ∈ filter (fun case => resolved_label case ∈ label_schedule epoch)
                  (test_cases info) ->
    label case <> None /\ label case <> Some "minimal".
Proof.
  intros Hr Hinfo. split.
  - unfold curriculum_aware_reward_fn. simpl.
    rewrite gate_loop_lookup, Hinfo, decide_True by done. simpl.
    unfold set_test_cases. by rewrite allowed_cases_resolved.
  - intros case [Hin _]%list_elem_of_filter.
    apply label_schedule_labels in Hin. unfold resolved_label in Hin.
    destruct (label case) as [l|].
    + split; [done|]. intros [= ->].
      destruct Hin as [H|[H|[H|H]]]; discriminate H.
    + destruct Hin as [H|[H|[H|H]]]; discriminate H.
Qed.

(** ** The evaluation payload *)

Lemma lines_correct_forallb (output' expected : string) :
  lines_correct output' expected =
  forallb (fun '(line1, line2) => bool_decide (strip line1 = strip line2))
          (zip (split LF output') (split LF expected)).
Proof.
  unfold lines_correct.
  assert (forall (ps : list (string * string)) acc,
            fold_left
              (fun all_correct '(line1, line2) =>
                 all_correct && bool_decide (strip line1 = strip line2))
              ps acc =
            acc && forallb (fun '(line1, line2) =>
                              bool_decide (strip line1 = strip line2)) ps)
    as Hfold.
  { induction ps as [|[line1 line2] ps IH]; intros acc; simpl.
    - by rewrite andb_true_r.
    - by rewrite IH, andb_assoc. }
  by rewrite Hfold.
Qed.

Lemma weights_get (l : string) :
  dict_get weights l 0%Q =
  if contains ["basic"; "medium"; "high"; "edge"] l then quarter else 0%Q.
Proof.
  unfold weights, dict_get, contains, existsb.
  rewrite !(String.eqb_sym l).
  by repeat destruct (String.eqb _ l).
Qed.

Section PayloadProperties.

Variable subprocess_run : string -> string -> result CompletedProcess.

(** One turn of the loop, for a run that completes. *)
Lemma evaluate_loop_step code case rest passed_weight total_weight process :
  subprocess_run code (input case) = Returned process ->
  evaluate_loop subprocess_run code (case :: rest) passed_weight total_weight =
  evaluate_loop subprocess_run code rest
    (if case_passes subprocess_run code case
     then passed_weight + trimmed_weight case else passed_weight)%Q
    (total_weight + trimmed_weight case)%Q.
Proof.
  intros Hrun. cbn [evaluate_loop]. unfold case_passes, trimmed_weight.
  rewrite Hrun. unfold_monad.
  rewrite !weights_get, lines_correct_forallb.
  by destruct (returncode process =? 0), (forallb _ _).
Qed.

Lemma evaluate_loop_sum code cases passed_weight total_weight :
  all_complete subprocess_run code cases ->
  exists v,
    evaluate_loop subprocess_run code cases passed_weight total_weight
      = Returned v /\
    (v == passed_weight +
          weighted_pass_sum subprocess_run trimmed_weight code cases)%Q.
Proof.
  intros Hall. revert passed_weight total_weight.
  induction Hall as [|case cases [process Hrun] _ IH];
    intros passed_weight total_weight.
  - eexists. split; [reflexivity|]. simpl. ring.
  - rewrite (evaluate_loop_step _ _ _ _ _ process) by done.
    cbn [weighted_pass_sum].
    destruct (case_passes subprocess_run code case).
    + destruct (IH (passed_weight + trimmed_weight case)%Q
                   (total_weight + trimmed_weight case)%Q)
        as (v & -> & Hv).
      eexists. split; [reflexivity|]. rewrite Hv. ring.
    + destruct (IH passed_weight (total_weight + trimmed_weight case)%Q)
        as (v & -> & Hv).
      eexists. split; [reflexivity|]. rewrite Hv. ring.
Qed.

Lemma trimmed_weight_bounds case :
  (0 <= trimmed_weight case <= quarter)%Q.
Proof.
  unfold trimmed_weight. destruct (contains _ _); split; done.
Qed.

(** Whenever the loop returns, its value lies between the weight it
    started from and a quarter more per case. *)
Lemma evaluate_loop_bounds code cases passed_weight total_weight v :
  evaluate_loop subprocess_run code cases passed_weight total_weight
    = Returned v ->
  (passed_weight <= v /\
   v <= passed_weight + quarter * inject_Z (Z.of_nat (length cases)))%Q.
Proof.
  revert passed_weight total_weight.
  induction cases as [|case cases IH]; intros passed_weight total_weight.
  - simpl. intros [= <-]. split; [apply Qle_refl|].
    rewrite Qmult_0_r, Qplus_0_r. apply Qle_refl.
  - destruct (subprocess_run code (input case)) as [process|e] eqn:Hrun.
    + rewrite (evaluate_loop_step _ _ _ _ _ process) by done.
      intros Hv. apply IH in Hv. destruct Hv as [Hlo Hhi].
      pose proof (trimmed_weight_bounds case) as [Hw0 Hw1].
      assert (inject_Z (Z.of_nat (length (case :: cases))) ==
              1 + inject_Z (Z.of_nat (length cases)))%Q as ->.
      { cbn [length]. rewrite Nat2Z.inj_succ, <- Z.add_1_l.
        by rewrite inject_Z_plus. }
      destruct (case_passes subprocess_run code case); split; lra.
    + cbn [evaluate_loop]. rewrite Hrun. done.
Qed.

End PayloadProperties.

(** C4 (amended).  For every snippet and every list of test cases whose
    subprocess runs all complete, the payload returns the sum, without
    normalisation, of the weights of the passing cases, where the weight is
    looked up for the label without its surrounding white space (a missing
    label being minimal, the four labels of the table weighing a quarter
    and every other label nothing), and a case passes when its subprocess
    exits with code 0 and the paired trimmed lines agree up to the shorter
    side. *)
Theorem payload_value_weighted_pass_sum
  (subprocess_run : string -> string -> result CompletedProcess)
  (code : string) (test_cases : list TestCase) :
  all_complete subprocess_run code test_cases ->
  exists v,
    evaluate_code subprocess_run code test_cases = Returned v /\
    (v == weighted_pass_sum subprocess_run trimmed_weight code test_cases)%Q.
Proof.
  intros Hall. unfold evaluate_code.
  destruct (evaluate_loop_sum subprocess_run code test_cases 0%Q 0%Q Hall)
    as (v & Hv & Hsum).
  exists v. split; [done|]. rewrite Hsum. ring.
Qed.

(** The payload of the claim at work: one passing case labelled basic, one
    failing case labelled edge. *)
Lemma payload_value_weighted_pass_sum_witness :
  exists v,
    evaluate_code Fixtures.python3 Fixtures.print_one
      [Fixtures.case "basic" EmptyString "1";
       Fixtures.case "edge" EmptyString "2"] = Returned v /\
    (v == weighted_pass_sum Fixtures.python3 trimmed_weight Fixtures.print_one
            [Fixtures.case "basic" EmptyString "1";
             Fixtures.case "edge" EmptyString "2"])%Q.
Proof.
  apply (payload_value_weighted_pass_sum Fixtures.python3 Fixtures.print_one).
  repeat constructor; eexists; vm_compute; reflexivity.
Defined.

(** C4 as stated fails twice.  A passing case labelled with basic preceded
    by a blank weighs a quarter for the payload, although the label is not
    in the table.  And when the run of a case does not complete, the payload
    raises instead of returning the weight of the cases that pass. *)
Lemma payload_value_not_literal_sum :
  (evaluate_code Fixtures.python3 Fixtures.print_one
     [Fixtures.case " basic" EmptyString "1"] = Returned (0 + quarter)%Q /\
   literal_weight (Fixtures.case " basic" EmptyString "1") = 0%Q /\
   weighted_pass_sum Fixtures.python3 literal_weight Fixtures.print_one
     [Fixtures.case " basic" EmptyString "1"] == 0)%Q /\
  (evaluate_code Fixtures.python3 Fixtures.count_down
     [Fixtures.case "basic" "0" "0"; Fixtures.case "basic" "1" "1"]
     = Raised TimeoutExpired /\
   weighted_pass_sum Fixtures.python3 literal_weight Fixtures.count_down
     [Fixtures.case "basic" "0" "0"; Fixtures.case "basic" "1" "1"]
     == quarter)%Q.
Proof. repeat split; vm_compute; reflexivity. Qed.

(** ** The range of the rewards *)

Lemma zip_lookup {A B : Type} (xs : list A) (ys : list B) i x y :
  zip xs ys !! i = Some (x, y) -> xs !! i = Some x /\ ys !! i = Some y.
Proof.
  revert ys i. induction xs as [|x' xs IH]; intros [|y' ys] i; try done.
  destruct i as [|i]; simpl.
  - by intros [= -> ->].
  - apply IH.
Qed.

Lemma scripts_of_lookup completions verification_info i script :
  scripts_of completions verification_info !! i = Some script ->
  exists info,
    verification_info !! i = Some info /\
    script_test_cases script = test_cases info.
Proof.
  unfold scripts_of. rewrite list_lookup_fmap.
  destruct (zip _ _ !! i) as [[code info]|] eqn:E; [|done].
  intros [= <-]. apply zip_lookup in E as [_ E]. by exists info.
Qed.

Lemma max_reward_nonneg info : (0 <= max_reward info)%Q.
Proof.
  unfold max_reward. apply Qmult_le_0_compat; [done|].
  change 0%Q with (inject_Z 0). rewrite <- Zle_Qle. lia.
Qed.

Lemma max_reward_four_cases info :
  (length (test_cases info) <= 4)%nat -> (max_reward info <= 1)%Q.
Proof.
  intros Hlen. unfold max_reward.
  assert (inject_Z (Z.of_nat (length (test_cases info))) <= inject_Z 4)%Q
    as Hle by (rewrite <- Zle_Qle; lia).
  unfold quarter. change (inject_Z 4) with 4%Q in Hle. lra.
Qed.

(** C7 (amended).  On a batch that passes the checks of the facade, with a
    provider that answers every request of the batch with the value of its
    payload, every reward is a finite float between 0 and a quarter per
    test case of the record at its index, hence at most 1 when that record
    has at most four test cases; the curriculum-aware entry point returns
    the rewards of the same function on the filtered records. *)
Theorem rewards_bounded_by_quarters
  (subprocess_run : string -> string -> result CompletedProcess)
  (float_of_str : string -> option pyfloat) (P : Provider)
  (completions : list Completion) (verification_info : list VerificationInfo)
  (info0 : VerificationInfo) :
  Forall (fun completion => completion <> []) completions ->
  head verification_info = Some info0 ->
  Forall (fun v => language v = language info0) verification_info ->
  (forall i script,
     scripts_of completions verification_info !! i = Some script ->
     answers_payload subprocess_run float_of_str P i script) ->
  (exists rewards log,
     run (code_based_on_unittests_reward true float_of_str P completions
            verification_info) = (Returned rewards, log) /\
     forall i r,
       rewards !! i = Some r ->
       exists q, r = Finite q /\ (0 <= q)%Q /\
         forall info, verification_info !! i = Some info ->
           (q <= max_reward info)%Q /\
           ((length (test_cases info) <= 4)%nat -> (q <= 1)%Q)) /\
  (forall refs epoch h,
     (curriculum_aware_reward_fn true float_of_str P completions refs epoch
        h).2 =
     code_based_on_unittests_reward true float_of_str P completions
       (deref (gate_loop (label_schedule epoch) refs h) refs)).
Proof.
  intros Hne Hhead Hsame Hanswers. split; [|done].
  unfold run. rewrite (reward_spec _ _ _ _ info0) by done.
  eexists _, _. split; [reflexivity|]. intros i r Hr.
  assert (forall q info, (0 <= q)%Q -> (q <= max_reward info)%Q ->
            (q <= max_reward info)%Q /\
            ((length (test_cases info) <= 4)%nat -> (q <= 1)%Q)) as Hfour.
  { intros q info _ Hq. split; [done|]. intros Hlen.
    apply max_reward_four_cases in Hlen. lra. }
  assert (exists q, zero = Finite q /\ (0 <= q)%Q /\
            forall info, verification_info !! i = Some info ->
              (q <= max_reward info)%Q /\
              ((length (test_cases info) <= 4)%nat -> (q <= 1)%Q)) as Hzero.
  { exists 0%Q. split; [done|]. split; [done|]. intros info _.
    apply Hfour; [done|apply max_reward_nonneg]. }
  destruct (dispatch_outcome _ _ _ _) as [rewards|e] eqn:E.
  - unfold dispatch_outcome in E. unfold_monad.
    destruct (create P) as [[]|?]; [|done].
    destruct (comprehension id _) as [rs|?] eqn:Ers; [|done].
    destruct (kill P) as [[]|?]; [|done]. injection E as <-.
    apply (comprehension_lookup _ _ _ _ Ers) in Hr.
    rewrite list_lookup_imap in Hr.
    destruct (scripts_of _ _ !! i) as [script|] eqn:Hscript; [|done].
    injection Hr as Hr. unfold request_result in Hr.
    destruct (run_code P i script (language info0)) as [[txt]|?] eqn:Hrun;
      [|done].
    injection Hr as <-. unfold float. simpl.
    destruct txt as [t|]; [|done].
    destruct (float_of_str t) as [x|] eqn:Hx; [|done].
    destruct (Hanswers i script Hscript _ _ _ Hrun Hx)
      as (v & q & Hv & -> & Hq).
    apply evaluate_loop_bounds in Hv as [Hlo Hhi].
    exists q. split; [done|]. split; [lra|]. intros info Hinfo.
    apply scripts_of_lookup in Hscript as (info' & Hinfo' & Hcases).
    assert (info' = info) as -> by congruence.
    apply Hfour; [lra|]. unfold max_reward. rewrite <- Hcases. lra.
  - assert (r ∈ repeat zero (length completions)) as Hin
      by (by eapply list_elem_of_lookup_2).
    apply list_elem_of_In, repeat_spec in Hin. by subst r.
Qed.

(** One completion that passes its single basic case earns a quarter. *)
Lemma rewards_bounded_by_quarters_witness :
  exists rewards log,
    run (code_based_on_unittests_reward true Fixtures.float_of_decimal
           (Fixtures.payload_provider Fixtures.python3)
           [Fixtures.prints_one]
           [Fixtures.python_info [Fixtures.basic_case]])
      = (Returned rewards, log) /\
    forall i r, rewards !! i = Some r ->
      exists q, r = Finite q /\ (0 <= q)%Q /\
        forall info,
          [Fixtures.python_info [Fixtures.basic_case]] !! i = Some info ->
          (q <= max_reward info)%Q /\
          ((length (test_cases info) <= 4)%nat -> (q <= 1)%Q).
Proof.
  apply (rewards_bounded_by_quarters Fixtures.python3
           Fixtures.float_of_decimal
           (Fixtures.payload_provider Fixtures.python3)
           [Fixtures.prints_one]
           [Fixtures.python_info [Fixtures.basic_case]]
           (Fixtures.python_info [Fixtures.basic_case])).
  - repeat constructor; discriminate.
  - reflexivity.
  - repeat constructor.
  - intros i script Hscript language t x Hrun Hx.
    destruct i as [|i]; [|discriminate Hscript].
    vm_compute in Hscript. injection Hscript as <-.
    vm_compute in Hrun. injection Hrun as <-.
    vm_compute in Hx. injection Hx as <-.
    eexists _, _. split; [vm_compute; reflexivity|].
    split; [reflexivity|]. vm_compute. reflexivity.
Defined.

(** C7 as stated fails: five passing cases labelled basic earn 1.25. *)
Lemma five_basic_cases_exceed_one :
  exists q v log,
    run (code_based_on_unittests_reward true Fixtures.float_of_decimal
           (Fixtures.payload_provider Fixtures.python3)
           [Fixtures.prints_one]
           [Fixtures.python_info
              [Fixtures.basic_case; Fixtures.basic_case; Fixtures.basic_case;
               Fixtures.basic_case; Fixtures.basic_case]])
      = (Returned [Finite q], log) /\
    script_value Fixtures.python3
      {| code_snippet := Fixtures.print_one;
         script_test_cases :=
           [Fixtures.basic_case; Fixtures.basic_case; Fixtures.basic_case;
            Fixtures.basic_case; Fixtures.basic_case] |} = Returned v /\
    (v == 5 # 4)%Q /\ (q == 5 # 4)%Q /\ (1 < q)%Q.
Proof.
  eexists _, _, _. split; [vm_compute; reflexivity|].
  split; [vm_compute; reflexivity|].
  repeat split; vm_compute; reflexivity.
Qed.

(** A batch of one completion and one record. *)
Lemma reward_length_aligned_batch_witness :
  exists rewards log,
    run (code_based_on_unittests_reward true Fixtures.float_of_decimal
           (Fixtures.payload_provider Fixtures.python3)
           [Fixtures.prints_one]
           [Fixtures.python_info [Fixtures.basic_case]])
      = (Returned rewards, log) /\
    length rewards = length [Fixtures.prints_one] /\
    forall e log',
      run (run_async_from_sync Fixtures.float_of_decimal
             (Fixtures.payload_provider Fixtures.python3)
             (scripts_of [Fixtures.prints_one]
                [Fixtures.python_info [Fixtures.basic_case]])
             (language (Fixtures.python_info [Fixtures.basic_case])))
        = (Raised e, log') ->
      rewards = repeat zero (length [Fixtures.prints_one]).
Proof.
  apply (reward_length_aligned_batch Fixtures.float_of_decimal
           (Fixtures.payload_provider Fixtures.python3)
           [Fixtures.prints_one]
           [Fixtures.python_info [Fixtures.basic_case]]
           (Fixtures.python_info [Fixtures.basic_case])).
  - repeat constructor; discriminate.
  - reflexivity.
  - reflexivity.
  - repeat constructor.
Defined.

(** C1 as stated fails on the empty batch, whose records vacuously declare
    one language: the facade raises and returns no list at all. *)
Lemma empty_batch_returns_no_list :
  Forall (fun v => language v = "python") [] /\
  ~ exists rewards log,
      run (code_based_on_unittests_reward true Fixtures.float_of_decimal
             (Fixtures.payload_provider Fixtures.python3) [] [])
        = (Returned rewards, log) /\
      length rewards = length ([] : list Completion).
Proof.
  split; [constructor|]. intros (rewards & log & Hrun & _).
  vm_compute in Hrun. discriminate Hrun.
Qed.

(** A python record followed by a javascript record. *)
Lemma mixed_languages_rejected_witness :
  run (code_based_on_unittests_reward true Fixtures.float_of_decimal
         (Fixtures.payload_provider Fixtures.python3)
         [Fixtures.prints_one; Fixtures.prints_one]
         [Fixtures.python_info [Fixtures.basic_case];
          Fixtures.javascript_info [Fixtures.basic_case]]) =
  (Raised (ValueError "All verification_info must have the same language"
             [Fixtures.python_info [Fixtures.basic_case];
              Fixtures.javascript_info [Fixtures.basic_case]]), []).
Proof.
  apply (mixed_languages_rejected Fixtures.float_of_decimal
           (Fixtures.payload_provider Fixtures.python3)
           [Fixtures.prints_one; Fixtures.prints_one] _
           (Fixtures.python_info [Fixtures.basic_case])
           (Fixtures.javascript_info [Fixtures.basic_case])).
  - repeat constructor; discriminate.
  - repeat constructor.
  - repeat constructor.
  - discriminate.
Defined.

(** C8 as stated fails when the sandbox capability is missing: the same
    mixed batch raises [ImportError], not the validation error. *)
Lemma mixed_languages_without_e2b :
  language (Fixtures.python_info [Fixtures.basic_case]) <>
  language (Fixtures.javascript_info [Fixtures.basic_case]) /\
  exists msg,
    run (code_based_on_unittests_reward false Fixtures.float_of_decimal
           (Fixtures.payload_provider Fixtures.python3)
           [Fixtures.prints_one; Fixtures.prints_one]
           [Fixtures.python_info [Fixtures.basic_case];
            Fixtures.javascript_info [Fixtures.basic_case]]) =
    (Raised (ImportError msg), []).
Proof. split; [discriminate|]. eexists. reflexivity. Qed.

(** Epoch 2 opens three labels, all of them still open at epoch 5. *)
Lemma label_schedule_by_epoch_witness :
  label_schedule 2 = ["basic"; "medium"; "high"] /\
  label_schedule 2 ⊆ label_schedule 5.
Proof.
  destruct (label_schedule_by_epoch 2) as (_ & _ & Hhigh & _ & Hmono).
  split; [apply Hhigh; lia|apply Hmono; lia].
Defined.

(** One dictionary referred to twice, at epoch 0: only its basic case is
    left. *)
Lemma curriculum_gate_filters_witness :
  (curriculum_aware_reward_fn true Fixtures.float_of_decimal
     (Fixtures.payload_provider Fixtures.python3)
     [Fixtures.prints_one; Fixtures.prints_one] [0; 0]%nat 0
     [Fixtures.python_info
        [Fixtures.basic_case; Fixtures.case "edge" EmptyString "1";
         {| input := EmptyString; output := "1"; label := None |}]]).1
    !! 0%nat =
  Some (Fixtures.python_info [Fixtures.basic_case]).
Proof.
  destruct (curriculum_gate_filters true Fixtures.float_of_decimal
              (Fixtures.payload_provider Fixtures.python3)
              [Fixtures.prints_one; Fixtures.prints_one] [0; 0]%nat 0
              [Fixtures.python_info
                 [Fixtures.basic_case; Fixtures.case "edge" EmptyString "1";
                  {| input := EmptyString; output := "1"; label := None |}]]
              0%nat
              (Fixtures.python_info
                 [Fixtures.basic_case; Fixtures.case "edge" EmptyString "1";
                  {| input := EmptyString; output := "1"; label := None |}]))
    as [Hgate _].
  - repeat constructor.
  - reflexivity.
  - exact Hgate.
Defined.

(** ** Faults of single requests *)

(** The sandbox is killed once when it was created and no request raised,
    and not at all otherwise. *)
Lemma kills_dispatch_log (float_of_str : string -> option pyfloat)
  (P : Provider) (scripts : list Script) (language : string) :
  kills (dispatch_log float_of_str P scripts language) =
  match create P,
        comprehension id (imap (request_result float_of_str P language) scripts)
  with
  | Returned _, Returned _ => 1%nat
  | _, _ => 0%nat
  end.
Proof.
  unfold dispatch_log, kills. simpl.
  destruct (create P) as [[]|e]; [|done].
  rewrite List.filter_app, length_app.
  assert (length (List.filter
            (fun ev => match ev with SandboxKill => true | _ => false end)
            (map (fun script => RunCode script language) scripts)) = 0%nat)
    as ->.
  { induction scripts as [|s ss IH]; simpl; done. }
  by destruct (comprehension id _).
Qed.

(** A request whose execution has no text, or a text that is no float,
    earns zero and raises nothing. *)
Lemma request_without_float_earns_zero
  (float_of_str : string -> option pyfloat) (P : Provider)
  (language : string) (i : nat) (script : Script) (execution : Execution) :
  run_code P i script language = Returned execution ->
  (text execution = None \/
   exists t, text execution = Some t /\ float_of_str t = None) ->
  request_result float_of_str P language i script = Returned zero.
Proof.
  unfold request_result, float. intros -> [->|(t & -> & ->)]; done.
Qed.

Lemma comprehension_all_returned (g : nat -> Script -> result pyfloat)
  (scripts : list Script) :
  (forall i script, scripts !! i = Some script ->
     exists x, g i script = Returned x) ->
  comprehension id (imap g scripts) =
  Returned (imap (fun i script => match g i script with
                                  | Returned x => x
                                  | Raised _ => zero
                                  end) scripts).
Proof.
  revert g. induction scripts as [|s scripts IH]; intros g Hg; [done|].
  rewrite !imap_cons. cbn [comprehension].
  rewrite (IH (g ∘ S)) by (intros i script Hi; apply (Hg (S i) script Hi)).
  destruct (Hg 0%nat s eq_refl) as [x Hx]. unfold id. by rewrite Hx.
Qed.

(** As long as the provider answers every request, faults stay with their
    request: each reward is the float of its own execution, or zero when
    that execution has no text or a text that is no float, and the sandbox
    is killed exactly once. *)
Lemma dispatch_without_raising_request
  (float_of_str : string -> option pyfloat) (P : Provider)
  (scripts : list Script) (language : string) :
  create P = Returned () -> kill P = Returned () ->
  (forall i script, scripts !! i = Some script ->
     exists execution, run_code P i script language = Returned execution) ->
  dispatch_outcome float_of_str P scripts language =
    Returned (imap (fun i script =>
                      match request_result float_of_str P language i script with
                      | Returned x => x
                      | Raised _ => zero
                      end) scripts) /\
  kills (dispatch_log float_of_str P scripts language) = 1%nat.
Proof.
  intros Hcreate Hkill Hanswer.
  assert (comprehension id
            (imap (request_result float_of_str P language) scripts) =
          Returned (imap (fun i script =>
                      match request_result float_of_str P language i script with
                      | Returned x => x
                      | Raised _ => zero
                      end) scripts)) as Hall.
  { apply comprehension_all_returned. intros i script Hi.
    destruct (Hanswer i script Hi) as [execution Hrun].
    unfold request_result. rewrite Hrun. by eexists. }
  split.
  - unfold dispatch_outcome. rewrite Hcreate, Hkill, Hall. done.
  - by rewrite kills_dispatch_log, Hcreate, Hall.
Qed.

(** C2.  The claim is that one request raising leaves the rewards of its
    siblings as they are and earns zero itself.  On the code, when the
    provider raises on the first of two requests, the second request is
    made and would earn its own 0.25, but [run_async] raises and the facade
    returns zero for both. *)
Theorem failed_request_zeroes_siblings :
  request_result Fixtures.float_of_decimal Fixtures.first_request_fails
    "python" 1 Fixtures.print_one_script = Returned (Finite (25 # 100)) /\
  run (run_async Fixtures.float_of_decimal Fixtures.first_request_fails
         [Fixtures.print_one_script; Fixtures.print_one_script] "python") =
  (Raised (SandboxException "request timed out"),
   [SandboxCreate; RunCode Fixtures.print_one_script "python";
    RunCode Fixtures.print_one_script "python"]) /\
  (run (code_based_on_unittests_reward true Fixtures.float_of_decimal
          Fixtures.first_request_fails
          [Fixtures.prints_one; Fixtures.prints_one]
          [Fixtures.python_info [Fixtures.basic_case];
           Fixtures.python_info [Fixtures.basic_case]])).1 =
  Returned [zero; zero].
Proof. repeat split; vm_compute; reflexivity. Qed.

(** C3.  The claim is that a sandbox that was created is killed exactly
    once on every path.  On the code, when the provider raises on the first
    of two requests, the sandbox is created, both requests are made, and
    the log of [run_async] ends without any kill. *)
Theorem failed_request_leaves_sandbox_alive :
  create Fixtures.first_request_fails = Returned () /\
  requests (run (run_async Fixtures.float_of_decimal
                   Fixtures.first_request_fails
                   [Fixtures.print_one_script; Fixtures.print_one_script]
                   "python")).2 = 2%nat /\
  kills (run (run_async Fixtures.float_of_decimal
                Fixtures.first_request_fails
                [Fixtures.print_one_script; Fixtures.print_one_script]
                "python")).2 = 0%nat.
Proof. repeat split; vm_compute; reflexivity. Qed.

(** ** Extraction of the code block *)

Lemma append_nil_l (s : string) : EmptyString +:+ s = s.
Proof. reflexivity. Qed.

Lemma append_cons (c : ascii) (s1 s2 : string) :
  String c s1 +:+ s2 = String c (s1 +:+ s2).
Proof. reflexivity. Qed.

Lemma append_assoc (s1 s2 s3 : string) :
  (s1 +:+ s2) +:+ s3 = s1 +:+ s2 +:+ s3.
Proof.
  induction s1 as [|c s1 IH]; [done|]. by rewrite !append_cons, IH.
Qed.

Lemma append_length (s1 s2 : string) :
  String.length (s1 +:+ s2) = (String.length s1 + String.length s2)%nat.
Proof.
  induction s1 as [|c s1 IH]; [done|]. rewrite append_cons. simpl.
  by rewrite IH.
Qed.

Lemma strip_prefix_Some (p s r : string) :
  strip_prefix p s = Some r <-> s = p +:+ r.
Proof.
  revert s. induction p as [|a p IH]; intros s; simpl.
  - split; [by intros [= ->]|by intros ->].
  - destruct s as [|b s]; [done|].
    destruct (Ascii.eqb_spec a b) as [->|Hne].
    + rewrite IH. split; [by intros ->|by intros [= ->]].
    + split; [done|]. intros [= H _]. by destruct Hne.
Qed.

Lemma find_fence_eq (s : string) :
  find_fence s =
  match strip_prefix fence s with
  | Some rest => Some (EmptyString, rest)
  | None =>
      match s with
      | EmptyString => None
      | String c s' =>
          match find_fence s' with
          | Some (body, rest) => Some (String c body, rest)
          | None => None
          end
      end
  end.
Proof. by destruct s. Qed.

Lemma fence_not_in_empty : ~ occurs fence EmptyString.
Proof. intros ([|c pre] & post & H); discriminate H. Qed.

(** Without a result, [find_fence] saw no fence. *)
Lemma find_fence_None (s : string) :
  find_fence s = None -> ~ occurs fence s.
Proof.
  induction s as [|c s IH]; [intros _; apply fence_not_in_empty|].
  rewrite find_fence_eq.
  destruct (strip_prefix fence (String c s)) as [rest|] eqn:E; [done|].
  destruct (find_fence s) as [[body rest]|]; [done|].
  intros _ ([|c' pre] & post & H).
  - rewrite append_nil_l in H. apply strip_prefix_Some in H. congruence.
  - rewrite append_cons in H. injection H as _ H.
    apply IH; [done|]. by exists pre, post.
Qed.

(** The result of [find_fence] splits the text at its first fence. *)
Lemma find_fence_Some (s body rest : string) :
  find_fence s = Some (body, rest) ->
  s = body +:+ fence +:+ rest /\ ~ occurs fence body.
Proof.
  revert body rest. induction s as [|c s IH]; intros body rest; [done|].
  rewrite find_fence_eq.
  destruct (strip_prefix fence (String c s)) as [rest'|] eqn:E.
  - intros [= <- <-]. apply strip_prefix_Some in E.
    split; [done|apply fence_not_in_empty].
  - destruct (find_fence s) as [[body' rest']|]; [|done].
    intros [= <- <-]. destruct (IH _ _ eq_refl) as [Hs Hno].
    split; [rewrite append_cons; by f_equal|].
    intros ([|c' pre] & post & H).
    + assert (strip_prefix fence (String c s) =
              Some (post +:+ fence +:+ rest')) as E'; [|congruence].
      apply strip_prefix_Some.
      rewrite Hs, <- append_cons, H, append_nil_l. by rewrite !append_assoc.
    + rewrite append_cons in H. injection H as _ H.
      apply Hno. by exists pre, post.
Qed.

(** Skipping the characters of a match resumes the scan behind it. *)
Lemma findall_from_skip (x op post : string) :
  findall_from (String.length x) op (x +:+ post) = findall_from 0 op post.
Proof.
  induction x as [|c x IH]; [done|]. rewrite append_cons. apply IH.
Qed.

Lemma findall_from_0 (op : string) (c : ascii) (s : string) :
  findall_from 0 op (String c s) =
  match strip_prefix op (String c s) with
  | Some rest =>
      match find_fence rest with
      | Some (body, _) =>
          body :: findall_from (String.length op + String.length body + 2) op s
      | None => findall_from 0 op s
      end
  | None => findall_from 0 op s
  end.
Proof. done. Qed.

Lemma block_in_cons (op : string) (c : ascii) (s : string) :
  block_in op s -> block_in op (String c s).
Proof.
  intros (pre & body & post & ->). by exists (String c pre), body, post.
Qed.

Lemma no_block_in_empty (op : string) : ~ block_in op EmptyString.
Proof.
  intros ([|? pre] & body & post & H); [|done]. rewrite append_nil_l in H.
  destruct op as [|? op]; [|done]. rewrite append_nil_l in H.
  by destruct body as [|? body].
Qed.

(** The scan finds nothing exactly when the text holds no complete block. *)
Lemma findall_from_nil (op s : string) :
  findall_from 0 op s = [] <-> ~ block_in op s.
Proof.
  induction s as [|c s IH]; [split; [intros _; apply no_block_in_empty|done]|].
  rewrite findall_from_0. split.
  - intros Hnil ([|c' pre] & body & post & H).
    + rewrite append_nil_l in H. apply strip_prefix_Some in H.
      rewrite H in Hnil.
      destruct (find_fence _) as [[body' rest]|] eqn:F; [done|].
      apply find_fence_None in F. apply F. by exists body, post.
    + rewrite append_cons in H. injection H as _ H.
      assert (findall_from 0 op s = []) as Hs.
      { destruct (strip_prefix op (String c s)); [|done].
        by destruct (find_fence _) as [[? ?]|]. }
      apply IH in Hs. apply Hs. by exists pre, body, post.
  - intros Hno.
    assert (findall_from 0 op s = []) as Hs.
    { apply IH. intros Hb. by apply Hno, block_in_cons. }
    destruct (strip_prefix op (String c s)) as [rest|] eqn:E; [|done].
    destruct (find_fence rest) as [[body rest']|] eqn:F; [|done].
    destruct Hno. apply strip_prefix_Some in E.
    apply find_fence_Some in F as [-> _].
    by exists EmptyString, body, rest'.
Qed.

(** The last match of the scan is a complete block with a body free of
    fences, and no complete block follows it. *)
Lemma findall_from_last (op s : string) (skip : nat) (body : string) :
  last (findall_from skip op s) = Some body ->
  exists pre post,
    s = pre +:+ op +:+ body +:+ fence +:+ post /\
    ~ occurs fence body /\ ~ block_in op post.
Proof.
  revert skip. induction s as [|c s IH]; intros skip; [done|].
  assert (forall k, last (findall_from k op s) = Some body ->
            exists pre post,
              String c s = pre +:+ op +:+ body +:+ fence +:+ post /\
              ~ occurs fence body /\ ~ block_in op post) as Hlater.
  { intros k Hk. destruct (IH k Hk) as (pre & post & -> & Hno & Hnb).
    by exists (String c pre), post. }
  destruct skip as [|k]; [|apply Hlater].
  rewrite findall_from_0.
  destruct (strip_prefix op (String c s)) as [rest|] eqn:E; [|apply Hlater].
  destruct (find_fence rest) as [[body0 rest']|] eqn:F; [|apply Hlater].
  rewrite last_cons.
  destruct (last (findall_from _ op s)) as [y|] eqn:HL.
  - intros [= ->]. by apply (Hlater _ HL).
  - intros [= ->]. apply last_None in HL.
    apply strip_prefix_Some in E. apply find_fence_Some in F as [-> Hno].
    exists EmptyString, rest'. split; [done|]. split; [done|].
    apply findall_from_nil. rewrite <- HL.
    rewrite <- !append_assoc in E.
    destruct ((op +:+ body) +:+ fence) as [|c' x] eqn:X.
    + apply (f_equal String.length) in X.
      rewrite !append_length in X. simpl in X. lia.
    + rewrite append_cons in E. injection E as _ ->.
      apply (f_equal String.length) in X.
      rewrite !append_length in X. simpl in X.
      replace (String.length op + String.length body + 2)%nat
        with (String.length x) by lia.
      by rewrite findall_from_skip.
Qed.

(** What [extract_code] returns: the empty string when the text holds no
    complete block of the language; otherwise the body of a complete block
    that no complete block follows. *)
Lemma extract_code_spec (text language : string) :
  (~ block_in (opening language) text /\
   extract_code text language = EmptyString) \/
  (exists pre post,
     text = pre +:+ opening language +:+ extract_code text language +:+
            fence +:+ post /\
     ~ occurs fence (extract_code text language) /\
     ~ block_in (opening language) post).
Proof.
  unfold extract_code, findall.
  destruct (last (findall_from 0 _ text)) as [body|] eqn:HL.
  - right. by apply findall_from_last in HL.
  - left. apply last_None, findall_from_nil in HL. done.
Qed.

(** C9 (amended).  For every batch whose completions all have a final
    turn, the facade extracts one snippet per completion, from the content
    of the final turn alone and without raising: the body of the last
    fenced block tagged python in that content, whatever language the batch
    declares, or the empty string when the content holds no such block. *)
Theorem snippets_from_last_python_block (completions : list Completion) :
  Forall (fun completion => completion <> []) completions ->
  exists snippets,
    code_snippets_of completions = Returned snippets /\
    Forall2
      (fun completion snippet =>
         exists turn,
           last completion = Some turn /\
           snippet = extract_code (content turn) "python" /\
           ((~ block_in (opening "python") (content turn) /\
             snippet = EmptyString) \/
            (exists pre post,
               content turn = pre +:+ opening "python" +:+ snippet +:+
                              fence +:+ post /\
               ~ occurs fence snippet /\
               ~ block_in (opening "python") post)))
      completions snippets.
Proof.
  intros Hne. exists (map snippet_of completions).
  split; [by apply code_snippets_of_spec|].
  induction Hne as [|completion completions Hc _ IH]; simpl; constructor;
    [|done].
  unfold snippet_of.
  destruct (last completion) as [turn|] eqn:E; [|by apply last_None in E].
  exists turn. split; [done|]. split; [done|]. apply extract_code_spec.
Qed.

(** A completion whose final turn holds one python block. *)
Lemma snippets_from_last_python_block_witness :
  exists snippets,
    code_snippets_of [Fixtures.prints_one] = Returned snippets /\
    Forall2
      (fun completion snippet =>
         exists turn,
           last completion = Some turn /\
           snippet = extract_code (content turn) "python" /\
           ((~ block_in (opening "python") (content turn) /\
             snippet = EmptyString) \/
            (exists pre post,
               content turn = pre +:+ opening "python" +:+ snippet +:+
                              fence +:+ post /\
               ~ occurs fence snippet /\
               ~ block_in (opening "python") post)))
      [Fixtures.prints_one] snippets.
Proof.
  apply (snippets_from_last_python_block [Fixtures.prints_one]).
  repeat constructor; discriminate.
Defined.

(** C9 as stated fails for a batch that declares javascript: the block
    tagged javascript of the final turn is not extracted, and the script
    sent to the sandbox holds the empty snippet. *)
Lemma javascript_block_not_extracted :
  extract_code (Fixtures.fenced "javascript" Fixtures.log_one) "javascript"
    = Fixtures.log_one /\
  code_snippets_of
    [Fixtures.assistant (Fixtures.fenced "javascript" Fixtures.log_one)]
    = Returned [EmptyString] /\
  (run (code_based_on_unittests_reward true Fixtures.float_of_decimal
          (Fixtures.payload_provider Fixtures.python3)
          [Fixtures.assistant (Fixtures.fenced "javascript" Fixtures.log_one)]
          [Fixtures.javascript_info [Fixtures.basic_case]])).2 =
  [SandboxCreate;
   RunCode {| code_snippet := EmptyString;
              script_test_cases := [Fixtures.basic_case] |} "javascript";
   SandboxKill].
Proof. repeat split; vm_compute; reflexivity. Qed.

(** * Further properties of the code *)

(** ** Errors of the facade *)

Lemma code_snippets_of_missing_turn (completions : list Completion) :
  [] ∈ completions -> code_snippets_of completions = Raised IndexError.
Proof.
  unfold code_snippets_of.
  induction completions as [|completion completions IH]; intros Hin.
  - by apply elem_of_nil in Hin.
  - cbn [comprehension]. destruct completion as [|turn turns].
    + reflexivity.
    + apply elem_of_cons in Hin as [Hin|Hin]; [done|].
      rewrite (IH Hin). unfold last_item.
      by destruct (last (turn :: turns)).
Qed.

Lemma code_snippets_of_cases (completions : list Completion) :
  code_snippets_of completions = Returned (map snippet_of completions) \/
  code_snippets_of completions = Raised IndexError.
Proof.
  assert (Forall (fun completion : Completion => completion <> [])
            completions \/ [] ∈ completions) as [Hall|Hin].
  { induction completions as [|completion completions [IH|IH]].
    - left. constructor.
    - destruct completion as [|turn turns].
      + right. by left.
      + left. by constructor.
    - right. by right. }
  - left. by apply code_snippets_of_spec.
  - right. by apply code_snippets_of_missing_turn.
Qed.

(** X1.  A completion without any turn makes the facade raise [IndexError]
    before it looks at [verification_info] and before it calls the
    provider, whatever the records are. *)
Theorem completion_without_turns_raises_IndexError
  (float_of_str : string -> option pyfloat) (P : Provider)
  (completions : list Completion) (verification_info : list VerificationInfo) :
  [] ∈ completions ->
  run (code_based_on_unittests_reward true float_of_str P completions
         verification_info) = (Raised IndexError, []).
Proof.
  intros Hin. unfold run, code_based_on_unittests_reward.
  by rewrite (code_snippets_of_missing_turn _ Hin).
Qed.

Lemma completion_without_turns_raises_IndexError_witness :
  run (code_based_on_unittests_reward true Fixtures.float_of_decimal
         (Fixtures.payload_provider Fixtures.python3)
         [Fixtures.prints_one; []]
         [Fixtures.python_info [Fixtures.basic_case];
          Fixtures.javascript_info []]) = (Raised IndexError, []).
Proof.
  apply (completion_without_turns_raises_IndexError
           Fixtures.float_of_decimal
           (Fixtures.payload_provider Fixtures.python3)).
  repeat constructor.
Defined.

(** X2.  Without any [verification_info] record the facade raises
    [IndexError] and makes no provider call, whatever the completions are:
    the language is read from the first record outside the [try]. *)
Theorem no_verification_info_raises_IndexError
  (float_of_str : string -> option pyfloat) (P : Provider)
  (completions : list Completion) :
  run (code_based_on_unittests_reward true float_of_str P completions []) =
  (Raised IndexError, []).
Proof.
  unfold run, code_based_on_unittests_reward.
  destruct (code_snippets_of_cases completions) as [-> | ->]; reflexivity.
Qed.

(** X3.  Whenever the facade raises, it has made no provider call, and the
    exception is the [ImportError] of the capability check, an [IndexError]
    of an empty completion or an empty [verification_info], or the
    [ValueError] of the language check: once the dispatch has started the
    facade always returns a list. *)
Theorem facade_raises_before_any_call (is_e2b_available : bool)
  (float_of_str : string -> option pyfloat) (P : Provider)
  (completions : list Completion) (verification_info : list VerificationInfo)
  (e : exn) (log : list event) :
  run (code_based_on_unittests_reward is_e2b_available float_of_str P
         completions verification_info) = (Raised e, log) ->
  log = [] /\
  ((exists msg, e = ImportError msg) \/ e = IndexError \/
   exists msg, e = ValueError msg verification_info).
Proof.
  unfold run, code_based_on_unittests_reward.
  destruct is_e2b_available; cbn [negb]; cbv iota.
  2:{ unfold_monad. intros [= <- <-]. split; [done|]. left. by eexists. }
  destruct (code_snippets_of_cases completions) as [-> | ->].
  2:{ unfold_monad. intros [= <- <-]. split; [done|]. right. by left. }
  destruct verification_info as [|info0 vs].
  { unfold_monad. intros [= <- <-]. split; [done|]. right. by left. }
  unfold_monad. unfold first_item.
  destruct (forallb _ (info0 :: vs)); cbn [negb]; cbv iota beta.
  - by destruct (run_async_from_sync _ _ _ _ _) as [[rewards|e'] log'].
  - intros [= <- <-]. split; [done|]. right. right. by eexists.
Qed.

Lemma facade_raises_before_any_call_witness :
  @nil event = [] /\
  ((exists msg, IndexError = ImportError msg) \/ IndexError = IndexError \/
   exists msg, IndexError = ValueError msg []).
Proof.
  apply (facade_raises_before_any_call true Fixtures.float_of_decimal
           (Fixtures.payload_provider Fixtures.python3) [] [] IndexError []).
  reflexivity.
Defined.

(** ** Failures of the sandbox itself *)

Lemma answered_request_result (float_of_str : string -> option pyfloat)
  (P : Provider) (language : string) (scripts : list Script) :
  all_answered P scripts language ->
  comprehension id (imap (request_result float_of_str P language) scripts) =
  Returned (imap (answered_reward float_of_str P language) scripts).
Proof.
  intros Hanswered. rewrite comprehension_all_returned.
  - f_equal. apply imap_ext. intros i script Hi.
    unfold request_result, answered_reward.
    by destruct (run_code P i script language).
  - intros i script Hi. destruct (Hanswered i script Hi) as [execution Hrun].
    unfold request_result. rewrite Hrun. by eexists.
Qed.

(** X4.  When the sandbox cannot be created, [run_async_from_sync] raises
    the exception of the creation after that single provider call, no
    script is run, no kill is attempted, and the facade returns one zero
    per completion, however many records there are. *)
Theorem sandbox_creation_failure_gives_zeros
  (float_of_str : string -> option pyfloat) (P : Provider)
  (completions : list Completion) (verification_info : list VerificationInfo)
  (info0 : VerificationInfo) (e : exn) :
  create P = Raised e ->
  Forall (fun completion => completion <> []) completions ->
  head verification_info = Some info0 ->
  Forall (fun v => language v = language info0) verification_info ->
  run (run_async_from_sync float_of_str P
         (scripts_of completions verification_info) (language info0)) =
    (Raised e, [SandboxCreate]) /\
  run (code_based_on_unittests_reward true float_of_str P completions
         verification_info) =
    (Returned (repeat zero (length completions)), [SandboxCreate]).
Proof.
  intros Hcreate Hne Hhead Hsame. unfold run. split.
  - rewrite run_async_from_sync_spec, run_async_spec.
    unfold dispatch_outcome, dispatch_log. by rewrite Hcreate.
  - rewrite (reward_spec _ _ _ _ info0) by done.
    unfold dispatch_outcome, dispatch_log. by rewrite Hcreate.
Qed.

Lemma sandbox_creation_failure_gives_zeros_witness :
  run (run_async_from_sync Fixtures.float_of_decimal Faulty.no_sandbox
         (scripts_of [Fixtures.prints_one; Fixtures.prints_one]
            [Fixtures.python_info [Fixtures.basic_case]])
         (language (Fixtures.python_info [Fixtures.basic_case]))) =
    (Raised (SandboxException "sandbox creation timed out"),
     [SandboxCreate]) /\
  run (code_based_on_unittests_reward true Fixtures.float_of_decimal
         Faulty.no_sandbox [Fixtures.prints_one; Fixtures.prints_one]
         [Fixtures.python_info [Fixtures.basic_case]]) =
    (Returned (repeat zero (length [Fixtures.prints_one; Fixtures.prints_one])),
     [SandboxCreate]).
Proof.
  apply (sandbox_creation_failure_gives_zeros Fixtures.float_of_decimal
           Faulty.no_sandbox [Fixtures.prints_one; Fixtures.prints_one]
           [Fixtures.python_info [Fixtures.basic_case]]
           (Fixtures.python_info [Fixtures.basic_case])).
  - reflexivity.
  - repeat constructor; discriminate.
  - reflexivity.
  - repeat constructor.
Defined.

(** X5.  When every request is answered but the kill raises, [run_async]
    raises after the kill call, and the facade throws the rewards of the
    answered requests away: it returns one zero per completion. *)
Theorem sandbox_kill_failure_discards_rewards
  (float_of_str : string -> option pyfloat) (P : Provider)
  (completions : list Completion) (verification_info : list VerificationInfo)
  (info0 : VerificationInfo) (e : exn) :
  create P = Returned () -> kill P = Raised e ->
  all_answered P (scripts_of completions verification_info) (language info0) ->
  Forall (fun completion => completion <> []) completions ->
  head verification_info = Some info0 ->
  Forall (fun v => language v = language info0) verification_info ->
  run (run_async float_of_str P (scripts_of completions verification_info)
         (language info0)) =
    (Raised e,
     SandboxCreate ::
     map (fun script => RunCode script (language info0))
         (scripts_of completions verification_info) ++ [SandboxKill]) /\
  run (code_based_on_unittests_reward true float_of_str P completions
         verification_info) =
    (Returned (repeat zero (length completions)),
     SandboxCreate ::
     map (fun script => RunCode script (language info0))
         (scripts_of completions verification_info) ++ [SandboxKill]).
Proof.
  intros Hcreate Hkill Hanswered Hne Hhead Hsame. unfold run.
  pose proof (answered_request_result float_of_str _ _ _ Hanswered) as Hall.
  split.
  - rewrite run_async_spec. unfold dispatch_outcome, dispatch_log.
    by rewrite Hcreate, Hall, Hkill.
  - rewrite (reward_spec _ _ _ _ info0) by done.
    unfold dispatch_outcome, dispatch_log.
    by rewrite Hcreate, Hall, Hkill.
Qed.

Lemma sandbox_kill_failure_discards_rewards_witness :
  run (code_based_on_unittests_reward true Fixtures.float_of_decimal
         Faulty.no_kill [Fixtures.prints_one]
         [Fixtures.python_info [Fixtures.basic_case]]) =
    (Returned (repeat zero (length [Fixtures.prints_one])),
     SandboxCreate ::
     map (fun script =>
            RunCode script
              (language (Fixtures.python_info [Fixtures.basic_case])))
         (scripts_of [Fixtures.prints_one]
            [Fixtures.python_info [Fixtures.basic_case]]) ++ [SandboxKill]).
Proof.
  apply (sandbox_kill_failure_discards_rewards Fixtures.float_of_decimal
           Faulty.no_kill [Fixtures.prints_one]
           [Fixtures.python_info [Fixtures.basic_case]]
           (Fixtures.python_info [Fixtures.basic_case])
           (SandboxException "sandbox not found")).
  - reflexivity.
  - reflexivity.
  - intros i script _. eexists. reflexivity.
  - repeat constructor; discriminate.
  - reflexivity.
  - repeat constructor.
Defined.

(** ** The dispatch when every request is answered *)

(** X6.  When the sandbox is created and killed without fault and the
    provider answers every request, [run_async] returns one reward per
    script, in the order of the scripts: the float of the text of the
    request's own execution, or zero when that execution has no text or a
    text that is no float.  The provider sees one creation, one request
    per script in the same order and with the given language, and one
    kill, in that order. *)
Theorem dispatch_of_answered_requests
  (float_of_str : string -> option pyfloat) (P : Provider)
  (scripts : list Script) (language : string) :
  create P = Returned () -> kill P = Returned () ->
  all_answered P scripts language ->
  run (run_async float_of_str P scripts language) =
  (Returned (imap (answered_reward float_of_str P language) scripts),
   SandboxCreate :: map (fun script => RunCode script language) scripts ++
   [SandboxKill]).
Proof.
  intros Hcreate Hkill Hanswered. unfold run.
  rewrite run_async_spec. unfold dispatch_outcome, dispatch_log.
  by rewrite Hcreate, (answered_request_result _ _ _ _ Hanswered), Hkill.
Qed.

Lemma dispatch_of_answered_requests_witness :
  run (run_async Fixtures.float_of_decimal Faulty.mixed_answers
         [Fixtures.print_one_script; Fixtures.print_one_script;
          Fixtures.print_one_script] "python") =
  (Returned (imap (answered_reward Fixtures.float_of_decimal
                     Faulty.mixed_answers "python")
               [Fixtures.print_one_script; Fixtures.print_one_script;
                Fixtures.print_one_script]),
   SandboxCreate ::
   map (fun script => RunCode script "python")
       [Fixtures.print_one_script; Fixtures.print_one_script;
        Fixtures.print_one_script] ++ [SandboxKill]).
Proof.
  apply (dispatch_of_answered_requests Fixtures.float_of_decimal
           Faulty.mixed_answers).
  - reflexivity.
  - reflexivity.
  - intros [|[|i]] script _; eexists; reflexivity.
Defined.

Lemma zip_lookup_Some {A B : Type} (xs : list A) (ys : list B) i x y :
  xs !! i = Some x -> ys !! i = Some y -> zip xs ys !! i = Some (x, y).
Proof.
  revert ys i. induction xs as [|x' xs IH]; intros [|y' ys] [|i]; try done.
  - by intros [= ->] [= ->].
  - simpl. apply IH.
Qed.

Lemma scripts_of_lookup_Some completions verification_info i completion info :
  completions !! i = Some completion ->
  verification_info !! i = Some info ->
  scripts_of completions verification_info !! i =
  Some (render (snippet_of completion) info).
Proof.
  intros Hc Hinfo. unfold scripts_of. rewrite list_lookup_fmap.
  rewrite (zip_lookup_Some _ _ i (snippet_of completion) info); [done| |done].
  by rewrite list_lookup_fmap, Hc.
Qed.

(** X7.  On a batch that passes the checks of the facade, with a sandbox
    created and killed without fault and a provider that answers every
    request, the facade returns as many rewards as there are aligned pairs
    of a completion and a record (the shorter of the two lists decides),
    and the reward at an index is the one of the script made of the
    snippet of the completion and the test cases of the record at that
    index, run with the language of the first record. *)
Theorem rewards_follow_completions
  (float_of_str : string -> option pyfloat) (P : Provider)
  (completions : list Completion) (verification_info : list VerificationInfo)
  (info0 : VerificationInfo) :
  create P = Returned () -> kill P = Returned () ->
  all_answered P (scripts_of completions verification_info) (language info0) ->
  Forall (fun completion => completion <> []) completions ->
  head verification_info = Some info0 ->
  Forall (fun v => language v = language info0) verification_info ->
  exists rewards log,
    run (code_based_on_unittests_reward true float_of_str P completions
           verification_info) = (Returned rewards, log) /\
    length rewards =
      Nat.min (length completions) (length verification_info) /\
    forall i completion info,
      completions !! i = Some completion ->
      verification_info !! i = Some info ->
      rewards !! i =
      Some (answered_reward float_of_str P (language info0) i
              (render (snippet_of completion) info)).
Proof.
  intros Hcreate Hkill Hanswered Hne Hhead Hsame. unfold run.
  rewrite (reward_spec _ _ _ _ info0) by done.
  unfold dispatch_outcome.
  rewrite Hcreate, (answered_request_result _ _ _ _ Hanswered), Hkill.
  unfold_monad. eexists _, _. split; [reflexivity|]. split.
  - by rewrite length_imap, scripts_of_length.
  - intros i completion info Hc Hinfo.
    rewrite list_lookup_imap.
    by rewrite (scripts_of_lookup_Some _ _ _ _ _ Hc Hinfo).
Qed.

Lemma rewards_follow_completions_witness :
  exists rewards log,
    run (code_based_on_unittests_reward true Fixtures.float_of_decimal
           Faulty.mixed_answers
           [Fixtures.prints_one; Fixtures.prints_one; Fixtures.prints_one]
           [Fixtures.python_info [Fixtures.basic_case];
            Fixtures.python_info []]) = (Returned rewards, log) /\
    length rewards =
      Nat.min (length [Fixtures.prints_one; Fixtures.prints_one;
                       Fixtures.prints_one])
              (length [Fixtures.python_info [Fixtures.basic_case];
                       Fixtures.python_info []]) /\
    forall i completion info,
      [Fixtures.prints_one; Fixtures.prints_one; Fixtures.prints_one] !! i
        = Some completion ->
      [Fixtures.python_info [Fixtures.basic_case]; Fixtures.python_info []]
        !! i = Some info ->
      rewards !! i =
      Some (answered_reward Fixtures.float_of_decimal Faulty.mixed_answers
              (language (Fixtures.python_info [Fixtures.basic_case])) i
              (render (snippet_of completion) info)).
Proof.
  apply (rewards_follow_completions Fixtures.float_of_decimal
           Faulty.mixed_answers
           [Fixtures.prints_one; Fixtures.prints_one; Fixtures.prints_one]
           [Fixtures.python_info [Fixtures.basic_case];
            Fixtures.python_info []]
           (Fixtures.python_info [Fixtures.basic_case])).
  - reflexivity.
  - reflexivity.
  - intros [|[|i]] script _; eexists; reflexivity.
  - repeat constructor; discriminate.
  - reflexivity.
  - repeat constructor.
Defined.

(** ** The curriculum gate and the caller's dictionaries *)

Lemma label_schedule_mono (e e' : Z) (l : string) :
  e <= e' ->
  contains (label_schedule e) l = true ->
  contains (label_schedule e') l = true.
Proof.
  intros Hle. rewrite !contains_elem_of. unfold label_schedule.
  repeat match goal with
         | |- context [?a <? ?b] => destruct (Z.ltb_spec a b)
         end;
    try lia; rewrite !elem_of_cons; tauto.
Qed.

Lemma filter_filter_implies {A : Type} (p q : A -> bool) (l : list A) :
  (forall x, p x = true -> q x = true) ->
  List.filter q (List.filter p l) = List.filter p l /\
  List.filter p (List.filter q l) = List.filter p l.
Proof.
  intros Hpq. induction l as [|x l [IH1 IH2]]; simpl; [done|].
  destruct (p x) eqn:Hp.
  - rewrite (Hpq x Hp). simpl. rewrite (Hpq x Hp), Hp. by rewrite IH1, IH2.
  - destruct (q x); simpl; rewrite ?Hp; by rewrite IH1, IH2.
Qed.

Lemma allowed_cases_sublist (allowed : list string) (cases : list TestCase) :
  sublist (allowed_cases allowed cases) cases.
Proof.
  unfold allowed_cases. induction cases as [|case cases IH]; simpl.
  - constructor.
  - destruct (contains _ _); by constructor.
Qed.

Lemma gate_loop_length (allowed : list string) (refs : list nat) (h : store) :
  length (gate_loop allowed refs h) = length h.
Proof.
  revert h. induction refs as [|r refs IH]; intros h; simpl; [done|].
  by rewrite IH, length_alter.
Qed.

(** X8.  The curriculum-aware entry point filters the caller's dictionaries
    before anything is checked: even when the sandbox capability is missing
    and the call raises [ImportError] without any provider call, every
    dictionary of the batch is left with its filtered test cases. *)
Theorem gate_runs_before_capability_check
  (float_of_str : string -> option pyfloat) (P : Provider)
  (completions : list Completion) (verification_info : list nat)
  (epoch : Z) (h : store) (r : nat) (info : VerificationInfo) :
  r ∈ verification_info ->
  h !! r = Some info ->
  (exists msg,
     run (curriculum_aware_reward_fn false float_of_str P completions
            verification_info epoch h).2 = (Raised (ImportError msg), [])) /\
  (curriculum_aware_reward_fn false float_of_str P completions
     verification_info epoch h).1 !! r =
  Some (set_test_cases
          (allowed_cases (label_schedule epoch) (test_cases info)) info).
Proof.
  intros Hr Hinfo. split; [by eexists|].
  unfold curriculum_aware_reward_fn. simpl.
  by rewrite gate_loop_lookup, Hinfo, decide_True.
Qed.

Lemma gate_runs_before_capability_check_witness :
  (exists msg,
     run (curriculum_aware_reward_fn false Fixtures.float_of_decimal
            (Fixtures.payload_provider Fixtures.python3)
            [Fixtures.prints_one] [0%nat] 0
            [Fixtures.python_info
               [Fixtures.basic_case;
                Fixtures.case "edge" EmptyString "1"]]).2 =
     (Raised (ImportError msg), [])) /\
  (curriculum_aware_reward_fn false Fixtures.float_of_decimal
     (Fixtures.payload_provider Fixtures.python3)
     [Fixtures.prints_one] [0%nat] 0
     [Fixtures.python_info
        [Fixtures.basic_case; Fixtures.case "edge" EmptyString "1"]]).1
    !! 0%nat =
  Some (set_test_cases
          (allowed_cases (label_schedule 0)
             (test_cases
                (Fixtures.python_info
                   [Fixtures.basic_case;
                    Fixtures.case "edge" EmptyString "1"])))
          (Fixtures.python_info
             [Fixtures.basic_case; Fixtures.case "edge" EmptyString "1"])).
Proof.
  apply (gate_runs_before_capability_check Fixtures.float_of_decimal
           (Fixtures.payload_provider Fixtures.python3)
           [Fixtures.prints_one] [0%nat] 0
           [Fixtures.python_info
              [Fixtures.basic_case; Fixtures.case "edge" EmptyString "1"]]
           0%nat).
  - repeat constructor.
  - reflexivity.
Defined.

(** X9.  The gate is destructive and calls compose to the earliest epoch:
    after a call at epoch [e], a call at epoch [e'] on the same
    dictionaries leaves the store as one call at the smaller of the two
    epochs would; cases dropped at an early epoch do not come back at a
    later one, and a second call at the same epoch changes nothing. *)
Theorem gate_calls_compose_to_earliest_epoch
  (is_e2b_available : bool) (float_of_str : string -> option pyfloat)
  (P : Provider) (completions : list Completion)
  (verification_info : list nat) (e e' : Z) (h : store) :
  (curriculum_aware_reward_fn is_e2b_available float_of_str P completions
     verification_info e'
     (curriculum_aware_reward_fn is_e2b_available float_of_str P completions
        verification_info e h).1).1 =
  (curriculum_aware_reward_fn is_e2b_available float_of_str P completions
     verification_info (Z.min e e') h).1.
Proof.
  unfold curriculum_aware_reward_fn. simpl. apply list_eq. intros r.
  rewrite !gate_loop_lookup.
  destruct (decide (r ∈ verification_info)) as [Hin|Hnin];
    [|by destruct (h !! r)].
  destruct (h !! r) as [info|]; [|done]. simpl. f_equal.
  unfold set_test_cases. simpl. f_equal. unfold allowed_cases.
  destruct (Z.le_ge_cases e e') as [Hle|Hge].
  - rewrite Z.min_l by done.
    apply (filter_filter_implies
             (fun case => contains (label_schedule e) (label_or_minimal case))
             (fun case => contains (label_schedule e') (label_or_minimal case))).
    intros case. by apply label_schedule_mono.
  - rewrite Z.min_r by lia.
    apply (filter_filter_implies
             (fun case => contains (label_schedule e') (label_or_minimal case))
             (fun case => contains (label_schedule e) (label_or_minimal case))).
    intros case. apply label_schedule_mono. lia.
Qed.

(** X10.  The gate keeps the store in shape: it keeps the number of
    dictionaries, every dictionary keeps its language, its test cases
    after the call are a sublist of those before, and a dictionary the
    batch does not refer to is not changed at all. *)
Theorem gate_changes_test_cases_only
  (is_e2b_available : bool) (float_of_str : string -> option pyfloat)
  (P : Provider) (completions : list Completion)
  (verification_info : list nat) (epoch : Z) (h : store) :
  length (curriculum_aware_reward_fn is_e2b_available float_of_str P
            completions verification_info epoch h).1 = length h /\
  forall r info',
    (curriculum_aware_reward_fn is_e2b_available float_of_str P completions
       verification_info epoch h).1 !! r = Some info' ->
    exists info,
      h !! r = Some info /\
      language info' = language info /\
      sublist (test_cases info') (test_cases info) /\
      (r ∉ verification_info -> info' = info).
Proof.
  unfold curriculum_aware_reward_fn. simpl. split.
  - apply gate_loop_length.
  - intros r info'. rewrite gate_loop_lookup.
    destruct (h !! r) as [info|]; [|done]. simpl.
    destruct (decide (r ∈ verification_info)) as [Hin|Hnin].
    + intros [= <-]. exists info. split; [done|]. split; [done|].
      split; [apply allowed_cases_sublist|done].
    + intros [= <-]. exists info. by repeat split.
Qed.

Lemma gate_changes_test_cases_only_witness :
  exists info,
    [Fixtures.python_info [Fixtures.case "edge" EmptyString "1"];
     Fixtures.javascript_info [Fixtures.case "high" EmptyString "1"]]
      !! 1%nat = Some info /\
    language (Fixtures.javascript_info [Fixtures.case "high" EmptyString "1"])
      = language info /\
    sublist
      (test_cases
         (Fixtures.javascript_info [Fixtures.case "high" EmptyString "1"]))
      (test_cases info) /\
    (1%nat ∉ [0%nat] ->
     Fixtures.javascript_info [Fixtures.case "high" EmptyString "1"] = info).
Proof.
  destruct (gate_changes_test_cases_only true Fixtures.float_of_decimal
              (Fixtures.payload_provider Fixtures.python3)
              [Fixtures.prints_one] [0%nat] 0
              [Fixtures.python_info [Fixtures.case "edge" EmptyString "1"];
               Fixtures.javascript_info
                 [Fixtures.case "high" EmptyString "1"]])
    as [_ Hkeeps].
  apply (Hkeeps 1%nat). reflexivity.
Defined.

Lemma deref_gate_loop (allowed : list string) (refs refs0 : list nat)
  (h : store) :
  (forall r, r ∈ refs0 -> r ∈ refs) ->
  omap (fun r => gate_loop allowed refs h !! r) refs0 =
  map (fun info =>
         set_test_cases (allowed_cases allowed (test_cases info)) info)
      (omap (fun r => h !! r) refs0).
Proof.
  induction refs0 as [|r refs0 IH]; intros Hsub; [done|].
  cbn [omap list_omap]. rewrite gate_loop_lookup.
  rewrite decide_True by (apply Hsub; by left).
  rewrite IH by (intros r' Hr'; apply Hsub; by right).
  by destruct (h !! r).
Qed.

(** X11.  The curriculum-aware entry point scores the caller's records
    with their test cases filtered by the labels of the epoch: what it
    returns is what [code_based_on_unittests_reward] returns on those
    filtered records, each record filtered once even when the batch refers
    to it several times. *)
Theorem curriculum_scores_filtered_records
  (is_e2b_available : bool) (float_of_str : string -> option pyfloat)
  (P : Provider) (completions : list Completion)
  (verification_info : list nat) (epoch : Z) (h : store) :
  (curriculum_aware_reward_fn is_e2b_available float_of_str P completions
     verification_info epoch h).2 =
  code_based_on_unittests_reward is_e2b_available float_of_str P completions
    (map (fun info =>
            set_test_cases
              (allowed_cases (label_schedule epoch) (test_cases info)) info)
         (deref h verification_info)).
Proof.
  unfold curriculum_aware_reward_fn, deref. simpl.
  by rewrite deref_gate_loop.
Qed.

(** X12.  For every integer epoch, also a negative one or one beyond 3,
    [label_schedule] returns the first [k + 1] of the four labels basic,
    medium, high and edge, where [k] is the epoch clamped to the range from
    0 to 3. *)
Theorem label_schedule_clamped_prefix (epoch : Z) :
  label_schedule epoch =
  take (Z.to_nat (Z.min (Z.max epoch 0) 3) + 1)
       ["basic"; "medium"; "high"; "edge"].
Proof.
  unfold label_schedule.
  destruct (Z.ltb_spec epoch 1).
  { by rewrite Z.max_r, Z.min_l by lia. }
  destruct (Z.ltb_spec epoch 2).
  { by assert (epoch = 1) as -> by lia. }
  destruct (Z.ltb_spec epoch 3).
  { by assert (epoch = 2) as -> by lia. }
  by rewrite Z.max_l, Z.min_r by lia.
Qed.

(** ** The value of the payload *)

Section PayloadValue.

Variable subprocess_run : string -> string -> result CompletedProcess.

Lemma pass_weight_nonneg code case :
  (0 <= (if case_passes subprocess_run code case
         then trimmed_weight case else 0))%Q.
Proof.
  destruct (case_passes _ _ _); [|done]. apply trimmed_weight_bounds.
Qed.

Lemma weighted_pass_sum_app code cases1 cases2 :
  (weighted_pass_sum subprocess_run trimmed_weight code (cases1 ++ cases2) ==
   weighted_pass_sum subprocess_run trimmed_weight code cases1 +
   weighted_pass_sum subprocess_run trimmed_weight code cases2)%Q.
Proof.
  induction cases1 as [|case cases1 IH]; simpl; [ring|]. rewrite IH. ring.
Qed.

Lemma weighted_pass_sum_perm code cases cases' :
  cases ≡ₚ cases' ->
  (weighted_pass_sum subprocess_run trimmed_weight code cases ==
   weighted_pass_sum subprocess_run trimmed_weight code cases')%Q.
Proof.
  induction 1 as [|case cases cases' _ IH|case1 case2 cases
                 |cases1 cases2 cases3 _ IH1 _ IH2]; simpl.
  - reflexivity.
  - by rewrite IH.
  - ring.
  - by rewrite IH1.
Qed.

Lemma weighted_pass_sum_filter_le code (p : TestCase -> bool) cases :
  (weighted_pass_sum subprocess_run trimmed_weight code (List.filter p cases)
   <= weighted_pass_sum subprocess_run trimmed_weight code cases)%Q.
Proof.
  induction cases as [|case cases IH]; simpl; [done|].
  pose proof (pass_weight_nonneg code case).
  destruct (p case); simpl; lra.
Qed.

Lemma all_complete_filter code (p : TestCase -> bool) cases :
  all_complete subprocess_run code cases ->
  all_complete subprocess_run code (List.filter p cases).
Proof.
  unfold all_complete. induction 1 as [|case cases Hc _ IH]; simpl.
  - constructor.
  - destruct (p case); [by constructor|done].
Qed.

(** What [evaluate_code] returns when every run completes. *)
Lemma evaluate_code_sum code cases :
  all_complete subprocess_run code cases ->
  exists v,
    evaluate_code subprocess_run code cases = Returned v /\
    (v == weighted_pass_sum subprocess_run trimmed_weight code cases)%Q.
Proof.
  intros Hall. unfold evaluate_code.
  destruct (evaluate_loop_sum subprocess_run code cases 0%Q 0%Q Hall)
    as (v & Hv & Hsum).
  exists v. split; [done|]. rewrite Hsum. ring.
Qed.

End PayloadValue.

(** X13.  The accumulator [total_weight] of [evaluate_code] never reaches
    the result: the loop returns the same value, or raises the same
    exception, whatever [total_weight] holds, so nothing is normalised. *)
Theorem total_weight_never_read
  (subprocess_run : string -> string -> result CompletedProcess)
  (code : string) (cases : list TestCase)
  (passed_weight total_weight total_weight' : Q) :
  evaluate_loop subprocess_run code cases passed_weight total_weight =
  evaluate_loop subprocess_run code cases passed_weight total_weight'.
Proof.
  revert passed_weight total_weight total_weight'.
  induction cases as [|case cases IH];
    intros passed_weight total_weight total_weight'; [done|].
  cbn [evaluate_loop].
  destruct (subprocess_run code (input case)) as [process|e]; [|done].
  unfold_monad.
  destruct (negb (returncode process =? 0)); [apply IH|].
  destruct (lines_correct _ _); apply IH.
Qed.

(** X14.  The payload does not survive a failed run: when the runs of the
    first cases complete and the run of the next case raises (a timeout,
    for one), [evaluate_code] raises that exception, whatever the earlier
    cases earned and whatever cases follow. *)
Theorem payload_raises_at_first_failed_run
  (subprocess_run : string -> string -> result CompletedProcess)
  (code : string) (before : list TestCase) (case : TestCase)
  (after : list TestCase) (e : exn) :
  all_complete subprocess_run code before ->
  subprocess_run code (input case) = Raised e ->
  evaluate_code subprocess_run code (before ++ case :: after) = Raised e.
Proof.
  intros Hall Hrun. unfold evaluate_code.
  generalize 0%Q at 1. generalize 0%Q.
  induction Hall as [|case0 before [process Hp] _ IH];
    intros total_weight passed_weight.
  - simpl app. cbn [evaluate_loop]. by rewrite Hrun.
  - rewrite <- app_comm_cons.
    rewrite (evaluate_loop_step _ _ _ _ _ _ process) by done. apply IH.
Qed.

Lemma payload_raises_at_first_failed_run_witness :
  evaluate_code Fixtures.python3 Fixtures.count_down
    ([Fixtures.case "basic" "0" "0"] ++
     Fixtures.case "basic" "1" "1" :: [Fixtures.case "basic" "0" "0"])
  = Raised TimeoutExpired.
Proof.
  apply (payload_raises_at_first_failed_run Fixtures.python3
           Fixtures.count_down [Fixtures.case "basic" "0" "0"]).
  - repeat constructor. eexists. vm_compute. reflexivity.
  - vm_compute. reflexivity.
Defined.

(** X15.  When every run completes, the order of the test cases does not
    matter: [evaluate_code] returns equal values on two lists that are
    permutations of each other. *)
Theorem payload_value_ignores_case_order
  (subprocess_run : string -> string -> result CompletedProcess)
  (code : string) (cases cases' : list TestCase) :
  cases ≡ₚ cases' ->
  all_complete subprocess_run code cases ->
  exists v v',
    evaluate_code subprocess_run code cases = Returned v /\
    evaluate_code subprocess_run code cases' = Returned v' /\
    (v == v')%Q.
Proof.
  intros Hperm Hall.
  assert (all_complete subprocess_run code cases') as Hall'.
  { unfold all_complete in *. by rewrite <- Hperm. }
  destruct (evaluate_code_sum _ _ _ Hall) as (v & Hv & Hsum).
  destruct (evaluate_code_sum _ _ _ Hall') as (v' & Hv' & Hsum').
  exists v, v'. split; [done|]. split; [done|].
  by rewrite Hsum, Hsum', (weighted_pass_sum_perm _ _ _ _ Hperm).
Qed.

Lemma payload_value_ignores_case_order_witness :
  exists v v',
    evaluate_code Fixtures.python3 Fixtures.print_one
      [Fixtures.basic_case; Fixtures.case "edge" EmptyString "2"]
      = Returned v /\
    evaluate_code Fixtures.python3 Fixtures.print_one
      [Fixtures.case "edge" EmptyString "2"; Fixtures.basic_case]
      = Returned v' /\
    (v == v')%Q.
Proof.
  apply (payload_value_ignores_case_order Fixtures.python3
           Fixtures.print_one).
  - apply perm_swap.
  - repeat constructor; eexists; vm_compute; reflexivity.
Defined.

(** X16.  When every run completes, the value of the payload on two lists
    of test cases put one after the other is the sum of its values on the
    two lists. *)
Theorem payload_value_of_appended_cases
  (subprocess_run : string -> string -> result CompletedProcess)
  (code : string) (cases1 cases2 : list TestCase) :
  all_complete subprocess_run code cases1 ->
  all_complete subprocess_run code cases2 ->
  exists v1 v2 v,
    evaluate_code subprocess_run code cases1 = Returned v1 /\
    evaluate_code subprocess_run code cases2 = Returned v2 /\
    evaluate_code subprocess_run code (cases1 ++ cases2) = Returned v /\
    (v == v1 + v2)%Q.
Proof.
  intros Hall1 Hall2.
  assert (all_complete subprocess_run code (cases1 ++ cases2)) as Hall
    by (by apply Forall_app).
  destruct (evaluate_code_sum _ _ _ Hall1) as (v1 & Hv1 & Hsum1).
  destruct (evaluate_code_sum _ _ _ Hall2) as (v2 & Hv2 & Hsum2).
  destruct (evaluate_code_sum _ _ _ Hall) as (v & Hv & Hsum).
  exists v1, v2, v. repeat split; try done.
  by rewrite Hsum, Hsum1, Hsum2, weighted_pass_sum_app.
Qed.

Lemma payload_value_of_appended_cases_witness :
  exists v1 v2 v,
    evaluate_code Fixtures.python3 Fixtures.print_one [Fixtures.basic_case]
      = Returned v1 /\
    evaluate_code Fixtures.python3 Fixtures.print_one
      [Fixtures.case "high" EmptyString "1"] = Returned v2 /\
    evaluate_code Fixtures.python3 Fixtures.print_one
      ([Fixtures.basic_case] ++ [Fixtures.case "high" EmptyString "1"])
      = Returned v /\
    (v == v1 + v2)%Q.
Proof.
  apply (payload_value_of_appended_cases Fixtures.python3
           Fixtures.print_one);
    repeat constructor; eexists; vm_compute; reflexivity.
Defined.

(** ** The gate and the value of the payload *)

(** X17.  Opening more labels never lowers the value of the payload: when
    every run completes, the value on the cases allowed at an epoch is at
    most the value on the cases allowed at a later epoch, which is at most
    the value on all the cases. *)
Theorem later_epochs_never_lower_the_value
  (subprocess_run : string -> string -> result CompletedProcess)
  (code : string) (cases : list TestCase) (e e' : Z) :
  e <= e' ->
  all_complete subprocess_run code cases ->
  exists v v' w,
    evaluate_code subprocess_run code
      (allowed_cases (label_schedule e) cases) = Returned v /\
    evaluate_code subprocess_run code
      (allowed_cases (label_schedule e') cases) = Returned v' /\
    evaluate_code subprocess_run code cases = Returned w /\
    (v <= v' /\ v' <= w)%Q.
Proof.
  intros Hle Hall. unfold allowed_cases.
  set (p := fun case => contains (label_schedule e) (label_or_minimal case)).
  set (q := fun case => contains (label_schedule e') (label_or_minimal case)).
  destruct (evaluate_code_sum _ _ _ (all_complete_filter _ code p _ Hall))
    as (v & Hv & Hsum).
  destruct (evaluate_code_sum _ _ _ (all_complete_filter _ code q _ Hall))
    as (v' & Hv' & Hsum').
  destruct (evaluate_code_sum _ _ _ Hall) as (w & Hw & Hsumw).
  exists v, v', w. repeat split; try done.
  - rewrite Hsum, Hsum'.
    destruct (filter_filter_implies p q cases) as [_ <-].
    { intros case. by apply label_schedule_mono. }
    apply weighted_pass_sum_filter_le.
  - rewrite Hsum', Hsumw. apply weighted_pass_sum_filter_le.
Qed.

Lemma later_epochs_never_lower_the_value_witness :
  exists v v' w,
    evaluate_code Fixtures.python3 Fixtures.print_one
      (allowed_cases (label_schedule 0)
         [Fixtures.basic_case; Fixtures.case "edge" EmptyString "1"])
      = Returned v /\
    evaluate_code Fixtures.python3 Fixtures.print_one
      (allowed_cases (label_schedule 5)
         [Fixtures.basic_case; Fixtures.case "edge" EmptyString "1"])
      = Returned v' /\
    evaluate_code Fixtures.python3 Fixtures.print_one
      [Fixtures.basic_case; Fixtures.case "edge" EmptyString "1"]
      = Returned w /\
    (v <= v' /\ v' <= w)%Q.
Proof.
  apply (later_epochs_never_lower_the_value Fixtures.python3
           Fixtures.print_one).
  - lia.
  - repeat constructor; eexists; vm_compute; reflexivity.
Defined.

Lemma removed_at_full_schedule_weighs_nothing (e : Z) (case : TestCase) :
  3 <= e ->
  (forall l, label case = Some l -> strip l = l) ->
  contains (label_schedule e) (label_or_minimal case) = false ->
  trimmed_weight case = 0%Q.
Proof.
  intros He Htrim. unfold label_schedule.
  destruct (Z.ltb_spec e 1); [lia|]. destruct (Z.ltb_spec e 2); [lia|].
  destruct (Z.ltb_spec e 3); [lia|].
  unfold label_or_minimal, trimmed_weight.
  destruct (label case) as [[|c l]|] eqn:Hl; try done.
  rewrite (Htrim _ eq_refl). by intros ->.
Qed.

(** X18.  From epoch 3 on the gate leaves the value of the payload as it
    is, provided no label carries surrounding white space: when every run
    completes, the payload returns equal values on the gated cases and on
    all the cases. *)
Theorem full_schedule_keeps_the_value
  (subprocess_run : string -> string -> result CompletedProcess)
  (code : string) (cases : list TestCase) (e : Z) :
  3 <= e ->
  (forall case l, case ∈ cases -> label case = Some l -> strip l = l) ->
  all_complete subprocess_run code cases ->
  exists v w,
    evaluate_code subprocess_run code
      (allowed_cases (label_schedule e) cases) = Returned v /\
    evaluate_code subprocess_run code cases = Returned w /\
    (v == w)%Q.
Proof.
  intros He Htrim Hall. unfold allowed_cases.
  destruct (evaluate_code_sum _ _ _
              (all_complete_filter _ code
                 (fun case =>
                    contains (label_schedule e) (label_or_minimal case))
                 _ Hall)) as (v & Hv & Hsum).
  destruct (evaluate_code_sum _ _ _ Hall) as (w & Hw & Hsumw).
  exists v, w. split; [done|]. split; [done|]. rewrite Hsum, Hsumw.
  clear Hall Hv Hw Hsum Hsumw.
  induction cases as [|case cases IH]; simpl; [reflexivity|].
  assert (weighted_pass_sum subprocess_run trimmed_weight code
            (List.filter
               (fun case =>
                  contains (label_schedule e) (label_or_minimal case))
               cases) ==
          weighted_pass_sum subprocess_run trimmed_weight code cases)%Q
    as IH'.
  { apply IH. intros case' l Hin. apply Htrim. by right. }
  destruct (contains _ _) eqn:Hkeep; simpl.
  - by rewrite IH'.
  - assert (trimmed_weight case = 0%Q) as ->.
    { apply (removed_at_full_schedule_weighs_nothing e case He); [|done].
      intros l. apply Htrim. by left. }
    rewrite IH'. destruct (case_passes _ _ _); ring.
Qed.

Lemma full_schedule_keeps_the_value_witness :
  exists v w,
    evaluate_code Fixtures.python3 Fixtures.print_one
      (allowed_cases (label_schedule 3)
         [Fixtures.basic_case; Fixtures.case "minimal" EmptyString "1"])
      = Returned v /\
    evaluate_code Fixtures.python3 Fixtures.print_one
      [Fixtures.basic_case; Fixtures.case "minimal" EmptyString "1"]
      = Returned w /\
    (v == w)%Q.
Proof.
  apply (full_schedule_keeps_the_value Fixtures.python3 Fixtures.print_one).
  - lia.
  - intros case l Hin Hl.
    repeat (apply elem_of_cons in Hin as [->|Hin];
            [injection Hl as <-; reflexivity|]).
    by apply elem_of_nil in Hin.
  - repeat constructor; eexists; vm_compute; reflexivity.
Defined.

(** ** The comparison of the output lines *)

Lemma split_cons (sep : ascii) (s : string) :
  exists l ls, split sep s = l :: ls.
Proof.
  induction s as [|c s (l & ls & IH)]; simpl; [by eexists _, _|].
  destruct (Ascii.eqb c sep); [by eexists _, _|].
  rewrite IH. by eexists _, _.
Qed.

Lemma split_append_newline (a b : string) :
  split LF (a +:+ newline +:+ b) = split LF a ++ split LF b.
Proof.
  induction a as [|c a IH].
  - rewrite append_nil_l. unfold newline.
    by rewrite append_cons, append_nil_l.
  - rewrite append_cons. cbn [split]. rewrite IH.
    destruct (Ascii.eqb c LF); [done|].
    by destruct (split_cons LF a) as (l & ls & ->).
Qed.

Lemma zip_surplus_l {A B : Type} (xs extra : list A) (ys : list B) :
  (length ys <= length xs)%nat -> zip (xs ++ extra) ys = zip xs ys.
Proof.
  revert ys. induction xs as [|x xs IH]; intros [|y ys] Hlen; simpl in *;
    try done; try lia.
  - by destruct extra.
  - f_equal. apply IH. lia.
Qed.

Lemma zip_surplus_r {A B : Type} (xs : list A) (ys extra : list B) :
  (length xs <= length ys)%nat -> zip xs (ys ++ extra) = zip xs ys.
Proof.
  revert ys. induction xs as [|x xs IH]; intros [|y ys] Hlen; simpl in *;
    try done; try lia.
  f_equal. apply IH. lia.
Qed.

(** X19.  The comparison of [evaluate_code] pairs the lines of the output
    with the lines of the expected output and stops at the shorter side:
    once the output has as many lines as the expected output, further
    output lines change nothing, and once the expected output has as many
    lines as the output, further expected lines change nothing. *)
Theorem lines_correct_ignores_surplus_lines
  (output' expected extra : string) :
  ((length (split LF expected) <= length (split LF output'))%nat ->
   lines_correct (output' +:+ newline +:+ extra) expected =
   lines_correct output' expected) /\
  ((length (split LF output') <= length (split LF expected))%nat ->
   lines_correct output' (expected +:+ newline +:+ extra) =
   lines_correct output' expected).
Proof.
  split; intros Hlen; rewrite !lines_correct_forallb, split_append_newline.
  - by rewrite zip_surplus_l.
  - by rewrite zip_surplus_r.
Qed.

Lemma lines_correct_ignores_surplus_lines_witness :
  lines_correct ("1" +:+ newline +:+ "debug") "1" = lines_correct "1" "1" /\
  lines_correct "1" ("1" +:+ newline +:+ "2") = lines_correct "1" "1".
Proof.
  destruct (lines_correct_ignores_surplus_lines "1" "1" "debug")
    as [Houtput _].
  destruct (lines_correct_ignores_surplus_lines "1" "1" "2")
    as [_ Hexpected].
  split; [apply Houtput|apply Hexpected]; vm_compute; lia.
Defined.

(** ** Extraction of a single block *)

Lemma occurs_cons (t : string) (c : ascii) (s : string) :
  occurs t s -> occurs t (String c s).
Proof. intros (pre & post & ->). by exists (String c pre), post. Qed.

(** The closing fence [find_fence] finds is the one behind the body, unless
    a fence starts earlier, possibly with the first back quotes of the
    closing fence. *)
Lemma find_fence_first (body rest : string) :
  ~ occurs fence (body +:+ "``") ->
  find_fence (body +:+ fence +:+ rest) = Some (body, rest).
Proof.
  induction body as [|c body IH]; intros Hno.
  - rewrite append_nil_l, find_fence_eq.
    by rewrite (proj2 (strip_prefix_Some fence (fence +:+ rest) rest)).
  - rewrite append_cons, find_fence_eq.
    destruct (strip_prefix fence (String c (body +:+ fence +:+ rest)))
      as [r|] eqn:E.
    + destruct Hno. apply strip_prefix_Some in E. unfold fence in E.
      rewrite !append_cons, !append_nil_l in E.
      destruct body as [|c2 [|c3 body]];
        rewrite ?append_cons, ?append_nil_l in E.
      * injection E as -> _. by exists EmptyString, EmptyString.
      * injection E as -> -> _. by exists EmptyString, "`".
      * injection E as -> -> -> _. by exists EmptyString, (body +:+ "``").
    + rewrite IH; [done|].
      intros Hocc. apply Hno. rewrite append_cons. by apply occurs_cons.
Qed.

(** A match of the pattern at the start of the text: its body is the first
    result, and the scan resumes behind the closing fence. *)
Lemma findall_from_block (op body post : string) :
  op <> EmptyString ->
  find_fence (body +:+ fence +:+ post) = Some (body, post) ->
  findall_from 0 op (op +:+ body +:+ fence +:+ post) =
  body :: findall_from 0 op post.
Proof.
  intros Hop Hfence. destruct op as [|c0 op']; [done|].
  rewrite append_cons, findall_from_0.
  rewrite (proj2 (strip_prefix_Some (String c0 op')
                    (String c0 (op' +:+ body +:+ fence +:+ post))
                    (body +:+ fence +:+ post))) by done.
  rewrite Hfence. f_equal.
  rewrite <- (findall_from_skip (op' +:+ body +:+ fence) (String c0 op') post).
  rewrite !append_assoc. f_equal.
  rewrite !append_length. simpl. lia.
Qed.

(** Text without a fence in front of a python block holds no match. *)
Lemma findall_from_leading_text (pre rest : string) :
  ~ occurs fence pre ->
  findall_from 0 (opening "python") (pre +:+ opening "python" +:+ rest) =
  findall_from 0 (opening "python") (opening "python" +:+ rest).
Proof.
  induction pre as [|c pre IH]; intros Hno; [done|].
  rewrite append_cons, findall_from_0.
  destruct (strip_prefix (opening "python")
              (String c (pre +:+ opening "python" +:+ rest))) as [r|] eqn:E.
  - destruct Hno. apply strip_prefix_Some in E.
    destruct pre as [|c2 [|c3 [|c4 pre]]];
      cbv [opening fence newline String.append] in E;
      try discriminate E.
    injection E as -> -> -> _. by exists EmptyString, (String c4 pre).
  - apply IH. intros Hocc. by apply Hno, occurs_cons.
Qed.

(** X20.  Round trip of the extraction through one python block: from a
    text made of a preamble without any fence, a block tagged python and a
    remainder that holds no complete python block, the default
    [extract_code] returns the body of the block, provided no fence starts
    inside the body or with its last back quotes. *)
Theorem extract_code_returns_the_block (pre body post : string) :
  ~ occurs fence pre ->
  ~ occurs fence (body +:+ "``") ->
  ~ block_in (opening "python") post ->
  extract_code
    (pre +:+ opening "python" +:+ body +:+ fence +:+ post) "python" = body.
Proof.
  intros Hpre Hbody Hpost. unfold extract_code, findall.
  rewrite findall_from_leading_text by done.
  rewrite findall_from_block; [|done|by apply find_fence_first].
  by rewrite (proj2 (findall_from_nil _ _) Hpost).
Qed.

Lemma extract_code_returns_the_block_witness :
  extract_code
    ("Here is the code:" +:+ opening "python" +:+ Fixtures.print_one +:+
     fence +:+ "Done.") "python" = Fixtures.print_one.
Proof.
  apply (extract_code_returns_the_block "Here is the code:"
           Fixtures.print_one "Done.").
  - intros Hocc.
    apply (find_fence_None "Here is the code:"); [reflexivity|done].
  - intros Hocc.
    apply (find_fence_None (Fixtures.print_one +:+ "``"));
      [reflexivity|done].
  - apply findall_from_nil. reflexivity.
Defined.
